(** * tuskarclient: credential resolution, generic managers and plan commands

    A shallow embedding of
    - [tuskarclient/common/auth.py]   (class [KeystoneAuthPlugin]),
    - [tuskarclient/common/base.py]   (class [Manager]),
    - [tuskarclient/osc/v2/plan.py]   (commands [SetManagementPlan] and
      [ShowManagementPlan]),
    together with the properties the specification states about them.

    Python values are modelled by the inductive [pyval]; Python dictionaries
    with string keys are finite maps ([gmap string pyval]); raising an
    exception is returning [Raise e]; objects with mutable attributes and
    the outside world (identity service, HTTP API, standard error) are
    threaded explicitly through a state-and-exception monad. *)

From Stdlib Require Import ZArith Ascii String.
From stdpp Require Import base option list strings gmap fin_maps sorting pretty.

Local Open Scope string_scope.
Set Warnings "-register-all".

(** ** Python values *)

Inductive pyval : Type :=
| PNone
| PBool (b : bool)
| PInt (z : Z)
| PStr (s : string)
| PList (l : list pyval)
| PDict (d : gmap string pyval).

(** Python truthiness ([bool(v)], as used by [if v], [not v], [and], [or]). *)
Definition truthy (v : pyval) : bool :=
  match v with
  | PNone => false
  | PBool b => b
  | PInt z => negb (Z.eqb z 0)
  | PStr s => negb (String.eqb s "")
  | PList l => match l with [] => false | _ :: _ => true end
  | PDict d => if decide (d = ∅) then false else true
  end.

(** [a or b] *)
Definition py_or (a b : pyval) : pyval := if truthy a then a else b.

(** [v is None] *)
Definition is_None (v : pyval) : bool :=
  match v with PNone => true | _ => false end.

(** [d.get(k)] on a dictionary: the value, or [None] when the key is absent. *)
Definition dict_get (d : gmap string pyval) (k : string) : pyval :=
  default PNone (d !! k).

(** [sep.join(l)] on a list of strings. *)
Fixpoint str_join (sep : string) (l : list string) : string :=
  match l with
  | [] => ""
  | [s] => s
  | s :: rest => s ++ sep ++ str_join sep rest
  end.

(** [needle in hay] for two strings: substring test. *)
Fixpoint str_contains (needle hay : string) : bool :=
  String.prefix needle hay ||
  match hay with
  | EmptyString => false
  | String _ hay' => str_contains needle hay'
  end.

(** ** Exceptions and results *)

Inductive exn : Type :=
| ValueError (msg : string)
| IndexError
| KeyError (key : string)
| TypeError
| AttributeError (name : string)
| NotImplementedError (msg : string)
| AuthPluginOptionsMissing (opt_names : pyval)
| RoleNotFound (name : string)
| ServiceError (what : string).

Inductive result (A : Type) : Type :=
| Return (a : A)
| Raise (e : exn).
Arguments Return {A} a.
Arguments Raise {A} e.

(** State-and-exception monad: a computation reads and updates a state of
    type [S] and either returns a value or raises. *)
Definition M (S A : Type) : Type := S -> result A * S.

Definition ret {S A} (a : A) : M S A := fun s => (Return a, s).
Definition raise {S A} (e : exn) : M S A := fun s => (Raise e, s).
Definition bind {S A B} (m : M S A) (k : A -> M S B) : M S B :=
  fun s => match m s with
           | (Return a, s') => k a s'
           | (Raise e, s') => (Raise e, s')
           end.
(** [try: m  except <handled>: h] *)
Definition try_except {S A} (m : M S A) (handled : exn -> bool) (h : M S A)
  : M S A :=
  fun s => match m s with
           | (Raise e, s') => if handled e then h s' else (Raise e, s')
           | r => r
           end.
Definition lift {S A} (r : result A) : M S A := fun s => (r, s).
Definition modify {S} (f : S -> S) : M S unit := fun s => (Return tt, f s).

Notation "'do' x <- m ; k" := (bind m (fun x => k))
  (at level 10, x name, m at level 100, k at level 200,
   format "'[v' 'do'  x  <-  m ; '/' k ']'").
Notation "'do_' m ; k" := (bind m (fun _ => k))
  (at level 10, m at level 100, k at level 200,
   format "'[v' 'do_'  m ; '/' k ']'").

(** ** [tuskarclient/common/auth.py] *)

Module Auth.

(** The keyword arguments handed to [ksclient.Client]. *)
Record ks_kwargs : Type := {
  kw_username : pyval;
  kw_password : pyval;
  kw_tenant_id : pyval;
  kw_tenant_name : pyval;
  kw_auth_url : pyval;
}.

(** What the plugin uses of a keystone client object: its [auth_token] and
    its [service_catalog.url_for(service_type=..., endpoint_type=...)]. *)
Record KsClient : Type := {
  auth_token : pyval;
  url_for : pyval -> pyval -> result pyval;  (* service_type, endpoint_type *)
}.

(** Every use of the identity service is recorded. *)
Inductive ks_event : Type :=
| KsConnect (kw : ks_kwargs)
| KsAuthToken
| KsUrlFor (service_type endpoint_type : pyval).

(** A [KeystoneAuthPlugin] instance: [self.opts], the attribute
    [self._ksclient] ([None] here means the attribute does not exist, so that
    [hasattr(self, '_ksclient')] is [is_Some]), and the trace of
    identity-service interactions. *)
Record plugin : Type := {
  opts : gmap string pyval;
  _ksclient : option KsClient;
  ks_trace : list ks_event;
}.

Definition opt_names : list string :=
  ["username"; "password"; "tenant_id"; "tenant_name"; "token"; "auth_url";
   "endpoint"].

Definition log_ks (e : ks_event) : M plugin unit :=
  modify (fun p => {| opts := opts p; _ksclient := _ksclient p;
                      ks_trace := ks_trace p ++ [e] |}).

Definition set_ksclient (c : KsClient) : M plugin unit :=
  modify (fun p => {| opts := opts p; _ksclient := Some c;
                      ks_trace := ks_trace p |}).

(** The dictionary [ks_kwargs] built by [_do_authenticate]. *)
Definition ks_kwargs_of (o : gmap string pyval) : ks_kwargs :=
  {| kw_username := dict_get o "username";
     kw_password := dict_get o "password";
     kw_tenant_id := dict_get o "tenant_id";
     kw_tenant_name := dict_get o "tenant_name";
     kw_auth_url := dict_get o "auth_url" |}.

Section WithIdentityService.

(** [ksclient.Client] applied to the keyword arguments: the external
    identity service. *)
Variable ks_Client : ks_kwargs -> result KsClient.

(** The [httpclient] argument of [_do_authenticate] is not used by its
    body and is left out. *)
Definition _do_authenticate : M plugin unit :=
  fun self =>
    if is_None (dict_get (opts self) "token") then
      let ks_kw := ks_kwargs_of (opts self) in
      (do_ log_ks (KsConnect ks_kw);
       do c <- lift (ks_Client ks_kw);
       set_ksclient c) self
    else ret tt self.

Definition token_and_endpoint (endpoint_type service_type : pyval)
  : M plugin (pyval * pyval) :=
  fun self =>
    if truthy (dict_get (opts self) "token")
       && truthy (dict_get (opts self) "endpoint") then
      ret (dict_get (opts self) "token", dict_get (opts self) "endpoint") self
    else
      match _ksclient self with
      | Some ks =>
          (do_ log_ks KsAuthToken;
           let token := auth_token ks in
           if truthy (dict_get (opts self) "endpoint") then
             ret (token, dict_get (opts self) "endpoint")
           else
             let st := py_or service_type (PStr "management") in
             do_ log_ks (KsUrlFor st endpoint_type);
             do endpoint <- lift (url_for ks st endpoint_type);
             ret (token, endpoint)) self
      | None => ret (PNone, PNone) self
      end.

(** Resolution: [_do_authenticate] followed by [token_and_endpoint]. *)
Definition resolve (endpoint_type service_type : pyval)
  : M plugin (pyval * pyval) :=
  do_ _do_authenticate;
  token_and_endpoint endpoint_type service_type.

End WithIdentityService.

(** The endpoint component of what a resolution produced. *)
Definition endpoint_of (r : result (pyval * pyval) * plugin) : result pyval :=
  match fst r with
  | Return (_, endpoint) => Return endpoint
  | Raise e => Raise e
  end.

(** Password-mode endpoint as the specification words it: the catalog is
    looked up by (service_type, endpoint_type), where endpoint_type defaults
    to "management" if unspecified; an explicit endpoint takes precedence. *)
Definition spec_password_endpoint (self_opts : gmap string pyval)
    (ks : KsClient) (endpoint_type service_type : pyval) : result pyval :=
  if truthy (dict_get self_opts "endpoint") then
    Return (dict_get self_opts "endpoint")
  else
    url_for ks service_type (py_or endpoint_type (PStr "management")).

(** [sufficient_options] touches neither the instance nor the world: it
    either returns or raises [AuthPluginOptionsMissing]. *)
Definition sufficient_options (self_opts : gmap string pyval) : result unit :=
  let check lookup_table :=
    let missing :=
      List.filter (fun opt => negb (truthy (dict_get self_opts opt)))
                  lookup_table in
    match missing with
    | [] => Return tt
    | _ :: _ => Raise (AuthPluginOptionsMissing (PList (PStr <$> missing)))
    end in
  if truthy (dict_get self_opts "token") then
    check ["token"; "endpoint"]
  else
    let lookup_table := ["username"; "password"; "auth_url"] in
    let tenant_opts := ["tenant_id"; "tenant_name"] in
    if negb (existsb truthy (dict_get self_opts <$> tenant_opts)) then
      Raise (AuthPluginOptionsMissing (PStr (str_join " or " tenant_opts)))
    else check lookup_table.

(** [field in opt_names], as Python evaluates it on what the exception
    carries: membership for a list, substring test for a string. *)
Definition names_include (names : pyval) (field : string) : bool :=
  match names with
  | PStr s => str_contains field s
  | PList l => existsb (fun v => match v with
                                 | PStr s => String.eqb s field
                                 | _ => false
                                 end) l
  | _ => false
  end.

(** The check fails with a missing-options error that names [field]. *)
Definition fails_naming (r : result unit) (field : string) : Prop :=
  exists names,
    r = Raise (AuthPluginOptionsMissing names) /\
    names_include names field = true.

End Auth.

(** ** [tuskarclient/common/base.py] *)

Module Base.

Inductive http_method : Type := GET | POST | PUT | DELETE.

Record request : Type := {
  req_method : http_method;
  req_url : string;
  req_body : option pyval;
}.

(** The world a manager acts on: the HTTP requests issued so far through
    [self.api], and what has been printed on standard error. *)
Record world : Type := {
  http_log : list request;
  stderr : list string;
}.

(** A resource class (the value of [resource_class] / [obj_class]); what the
    code observes of it is how it prints in a format string. *)
Record rclass : Type := { class_repr : string }.

(** A manager (an instance of a subclass of [Manager]): its class attribute
    [resource_class] and its static method [_path]. *)
Record Manager : Type := {
  resource_class : option rclass;
  _path : pyval -> result string;
}.

(** Modelled from the spec: the [Resource] base class, which belongs to the
    apiclient package and whose source is not available. A resource is "a
    value object wrapping a JSON document returned by the API plus a
    back-reference to its owning Manager". *)
Record Resource : Type := {
  manager : Manager;
  res_class : rclass;
  _info : pyval;
  _loaded : bool;
}.

(** The base class itself: no resource class, and [_path] is abstract. *)
Definition base_Manager : Manager :=
  {| resource_class := None;
     _path := fun _ =>
       Raise (NotImplementedError "_path method not implemented.") |}.

(** ["{0}".format(self.resource_class)] *)
Definition format_class (c : option rclass) : string :=
  match c with
  | None => "None"
  | Some c => class_repr c
  end.

Definition _single_path (self : Manager) (id : pyval) : result string :=
  if negb (truthy id) then
    Raise (ValueError (format_class (resource_class self)
                         ++ " id is required."))
  else _path self id.

(** Calling [cls(self, info, loaded=...)]; calling [None] is a [TypeError].
    What the constructor of a concrete class does with [info] beyond
    storing it is not part of [base.py]. *)
Definition new_resource (cls : option rclass) (self : Manager) (info : pyval)
    (loaded : bool) : result Resource :=
  match cls with
  | None => Raise TypeError
  | Some c => Return {| manager := self; res_class := c; _info := info;
                        _loaded := loaded |}
  end.

(** [body[key]] for a string key. *)
Definition py_getitem (body : pyval) (key : string) : result pyval :=
  match body with
  | PDict d => match d !! key with
               | Some v => Return v
               | None => Raise (KeyError key)
               end
  | _ => Raise TypeError
  end.

Definition chars (s : string) : list string :=
  (fun a => String a EmptyString) <$> String.list_ascii_of_string s.

(** The elements [for res in data] runs through. A dictionary yields its
    keys (here in the enumeration order of the finite map). *)
Definition py_iter (data : pyval) : result (list pyval) :=
  match data with
  | PList l => Return l
  | PStr s => Return (PStr <$> chars s)
  | PDict d => Return (PStr <$> (map_to_list d).*1)
  | PNone | PBool _ | PInt _ => Raise TypeError
  end.

(** [[f(x) for x in l]] where [f] may raise. *)
Fixpoint map_result {A B} (f : A -> result B) (l : list A) : result (list B) :=
  match l with
  | [] => Return []
  | x :: rest =>
      match f x with
      | Raise e => Raise e
      | Return y =>
          match map_result f rest with
          | Raise e => Raise e
          | Return ys => Return (y :: ys)
          end
      end
  end.

(** A string-or-[None] argument such as [response_key]. *)
Definition truthy_key (k : option string) : option string :=
  match k with
  | Some s => if String.eqb s "" then None else Some s
  | None => None
  end.

(** Keyword arguments [_get] forwards to [_list]; [None] in [kw_expect_single]
    means the caller did not pass the keyword. *)
Record list_kwargs : Type := {
  kw_response_key : option string;
  kw_obj_class : option rclass;
  kw_expect_single : option bool;
}.

Definition no_kwargs : list_kwargs :=
  {| kw_response_key := None; kw_obj_class := None; kw_expect_single := None |}.

(** [obj_class], or [self.resource_class] when [obj_class is None]. *)
Definition class_for (self : Manager) (obj_class : option rclass)
  : option rclass :=
  match obj_class with
  | None => resource_class self
  | Some c => Some c
  end.

(** What [_list] takes its elements from: the body itself, or the entry of
    the body under a truthy [response_key]. [Return None] stands for the
    [KeyError] that [_list] catches to return the empty list at once; any
    other exception of the subscript propagates. *)
Definition response_data (response_key : option string) (body : pyval)
  : result (option pyval) :=
  match truthy_key response_key with
  | Some key =>
      match py_getitem body key with
      | Return data => Return (Some data)
      | Raise (KeyError _) => Return None
      | Raise e => Raise e
      end
  | None => Return (Some body)
  end.

Definition is_IndexError (e : exn) : bool :=
  match e with IndexError => true | _ => false end.

Definition print_stderr (line : string) : M world unit :=
  modify (fun w => {| http_log := http_log w; stderr := stderr w ++ [line] |}).

(** The world after one more request went out. *)
Definition logged (w : world) (rq : request) : world :=
  {| http_log := http_log w ++ [rq]; stderr := stderr w |}.

Definition get_request (url : string) : request :=
  {| req_method := GET; req_url := url; req_body := None |}.

Definition put_request (url : string) (body : pyval) : request :=
  {| req_method := PUT; req_url := url; req_body := Some body |}.

Section WithApi.

(** The remote service behind [self.api]: given the requests seen so far and
    a new request, the decoded response body or the exception the transport
    raises. *)
Variable respond : list request -> request -> result pyval.

Definition send (rq : request) : M world pyval :=
  fun w => (respond (http_log w) rq, logged w rq).

(** [self.api.json_request(method, url, body=body)], projected on the body. *)
Definition json_request (method : http_method) (url : string)
    (body : option pyval) : M world pyval :=
  send {| req_method := method; req_url := url; req_body := body |}.

(** [self.api.raw_request(method, url)] *)
Definition raw_request (method : http_method) (url : string) : M world unit :=
  do_ send {| req_method := method; req_url := url; req_body := None |};
  ret tt.

Definition _create (self : Manager) (url : string) (body : pyval)
  : M world (option Resource) :=
  do body <- json_request POST url (Some body);
  if truthy body then
    do r <- lift (new_resource (resource_class self) self body false);
    ret (Some r)
  else ret None.

Definition _list (self : Manager) (url : string) (response_key : option string)
    (obj_class : option rclass) (expect_single : bool)
  : M world (list Resource) :=
  do body <- json_request GET url None;
  let obj_class := class_for self obj_class in
  do data <- lift (response_data response_key body);
  match data with
  | None => ret []
  | Some data =>
      do elements <- lift (if expect_single then Return [data]
                           else py_iter data);
      lift (map_result (fun res => new_resource obj_class self res true)
                       (List.filter truthy elements))
  end.

Definition _get (self : Manager) (url : string) (kwargs : list_kwargs)
  : M world (option Resource) :=
  let expect_single := default true (kw_expect_single kwargs) in
  try_except
    (do l <- _list self url (kw_response_key kwargs) (kw_obj_class kwargs)
                   expect_single;
     match l with
     | [] => raise IndexError
     | r :: _ => ret (Some r)
     end)
    is_IndexError
    (ret None).

Definition _update (self : Manager) (url : string) (body : pyval)
  : M world (option Resource) :=
  do body <- json_request PUT url (Some body);
  if truthy body then
    do r <- lift (new_resource (resource_class self) self body false);
    ret (Some r)
  else ret None.

Definition _delete (url : string) : M world unit :=
  raw_request DELETE url.

(** Modelled from the spec: the [delete(id)] method of the concrete
    managers, whose source is not available; it "issues a DELETE to the
    single-resource path". *)
Definition delete (self : Manager) (id : pyval) : M world unit :=
  do url <- lift (_single_path self id);
  _delete url.

End WithApi.

End Base.

(** ** Request marshalling helpers ([tuskarclient.common.utils]) *)

Module Utils.

(** [s.split("=", 1)] unpacked into two names: [None] when there is no ["="]
    to split at. *)
Fixpoint split_eq (s : string) : option (string * string) :=
  match s with
  | EmptyString => None
  | String c rest =>
      if Ascii.eqb c "="%char then Some ("", rest)
      else match split_eq rest with
           | Some (k, v) => Some (String c k, v)
           | None => None
           end
  end.

(** A patch operation [{op, path, value}] as the dictionary sent in a body. *)
Definition patch_op (op path value : string) : pyval :=
  PDict (<["op" := PStr op]> (<["path" := PStr path]>
          (<["value" := PStr value]> ∅))).

(** Modelled from the spec: [parameters_args_to_patch] of
    [tuskarclient/common/utils.py], whose source is not available. "Given
    KEY=VALUE strings (no role scoping), emit one add-style patch operation
    per pair directly against a parameters path", in argument order. An
    option that was never given on the command line ([None]) contributes no
    pair, hence no operation. *)
Definition parameters_args_to_patch (parameters : option (list string))
  : result (list pyval) :=
  match parameters with
  | None => Return []
  | Some l =>
      Base.map_result
        (fun arg =>
           match split_eq arg with
           | Some (k, v) => Return (patch_op "add" ("parameters/" ++ k) v)
           | None => Raise (ValueError "need more than 1 value to unpack")
           end) l
  end.

(** The identifier of the first role whose name is exactly [name]. *)
Fixpoint find_role (name : string) (roles : list pyval) : option string :=
  match roles with
  | [] => None
  | PDict d :: rest =>
      match d !! "name", d !! "uuid" with
      | Some (PStr n), Some (PStr id) =>
          if String.eqb n name then Some id else find_role name rest
      | _, _ => find_role name rest
      end
  | _ :: rest => find_role name rest
  end.

(** Modelled from the spec: [args_to_patch] of
    [tuskarclient/common/utils.py], whose source is not available. "Given a
    list of ROLE=VALUE strings and the current set of roles, resolve ROLE to
    the matching role's identifier; fail with a role-not-found condition if
    no case-sensitive exact name match exists; emit one patch operation per
    resolved pair, targeting a path that encodes the role identifier and the
    target field", in argument order, raising at the first unresolvable
    role. *)
Definition args_to_patch (args : option (list string)) (roles : pyval)
    (field : string) : result (list pyval) :=
  match args with
  | None => Return []
  | Some l =>
      match Base.py_iter roles with
      | Raise e => Raise e
      | Return rs =>
          Base.map_result
            (fun arg =>
               match split_eq arg with
               | None => Raise (ValueError "need more than 1 value to unpack")
               | Some (role, v) =>
                   match find_role role rs with
                   | None => Raise (RoleNotFound role)
                   | Some id =>
                       Return (patch_op "replace"
                                 ("roles/" ++ id ++ "/" ++ field) v)
                   end
               end) l
      end
  end.

End Utils.

(** ** [tuskarclient/osc/v2/plan.py] *)

Module Plan.
Import Base.

(** Modelled from the spec: attribute access on a resource ([plan.roles],
    [role.name]), provided by the [Resource] class of the apiclient package,
    whose source is not available. A resource wraps a JSON document; its
    attributes are the fields of that document. *)
Definition doc_attr (doc : pyval) (name : string) : result pyval :=
  match doc with
  | PDict d => match d !! name with
               | Some v => Return v
               | None => Raise (AttributeError name)
               end
  | _ => Raise (AttributeError name)
  end.

(** [plan.<name>] where [plan] is a resource or [None]. *)
Definition getattr (plan : option Resource) (name : string) : result pyval :=
  match plan with
  | Some r => doc_attr (_info r) name
  | None => Raise (AttributeError name)
  end.

(** Modelled from the spec: the [to_dict] method of the same [Resource]
    class; it hands out (a copy of) the wrapped document. *)
Definition to_dict (plan : option Resource) : result (gmap string pyval) :=
  match plan with
  | Some r => match _info r with
              | PDict d => Return d
              | _ => Raise TypeError
              end
  | None => Raise (AttributeError "to_dict")
  end.

(** [[r.name for r in roles]]: the attribute is read off every role, in
    order, before anything is joined. *)
Definition role_names (roles : pyval) : result (list pyval) :=
  match py_iter roles with
  | Raise e => Raise e
  | Return rs => map_result (fun r => doc_attr r "name") rs
  end.

(** [sep.join(items)] on a list of values: an item that is not a string
    makes the call raise [TypeError]. *)
Definition py_join (sep : string) (items : list pyval) : result string :=
  match map_result (fun v => match v with
                             | PStr s => Return s
                             | _ => Raise TypeError
                             end) items with
  | Raise e => Raise e
  | Return texts => Return (str_join sep texts)
  end.

Definition suppression_notice : string :=
  "Parameter output suppressed. Use --long to display them.".

Definition no_update_warning : string :=
  "WARNING: No valid arguments passed. No update operation has been performed.".

Section PlanManager.

Variable respond : list request -> request -> result pyval.

(** [client.plans]: the plan manager of the management client. *)
Variable plans : Manager.

(** Modelled from the spec: the [get] method of the plan manager
    ([tuskarclient/v2/plans.py], whose source is not available). It "fetches
    via list-style request expecting exactly one result". *)
Definition plans_get (plan_uuid : pyval) : M world (option Resource) :=
  do url <- lift (_single_path plans plan_uuid);
  _get respond plans url no_kwargs.

(** Modelled from the spec: the [patch] method of the same plan manager. The
    update "issues a PUT to the single-resource path". *)
Definition plans_patch (plan_uuid : pyval) (patch : list pyval)
  : M world (option Resource) :=
  do url <- lift (_single_path plans plan_uuid);
  _update respond plans url (PList patch).

End PlanManager.

Module SetManagementPlan.

(** What the parser of the command produces; an option given with
    [action='append'] is [None] when it never occurs on the command line. *)
Record parsed_args : Type := {
  plan_uuid : pyval;
  parameters : option (list string);
  flavors : option (list string);
  scales : option (list string);
}.

Section Command.

Variable respond : list request -> request -> result pyval.
Variable plans : Manager.

(** [self.dict2columns], inherited from the command framework. *)
Variable columns : Type.
Variable dict2columns : gmap string pyval -> columns.

(** [utils.parameters_args_to_patch] and [utils.args_to_patch]. *)
Variable parameters_args_to_patch :
  option (list string) -> result (list pyval).
Variable args_to_patch :
  option (list string) -> pyval -> string -> result (list pyval).

Definition take_action (parsed_args : parsed_args) : M world columns :=
  do plan <- plans_get respond plans (plan_uuid parsed_args);
  do roles <- lift (getattr plan "roles");
  do p1 <- lift (parameters_args_to_patch (parameters parsed_args));
  do p2 <- lift (args_to_patch (flavors parsed_args) roles "Flavor");
  do p3 <- lift (args_to_patch (scales parsed_args) roles "count");
  let patch := (p1 ++ p2 ++ p3)%list in
  do plan <- (if Nat.ltb 0 (length patch)
              then plans_patch respond plans (plan_uuid parsed_args) patch
              else do_ print_stderr no_update_warning; ret plan);
  do plan_dict <- lift (to_dict plan);
  ret (dict2columns plan_dict).

End Command.

End SetManagementPlan.

Module ShowManagementPlan.

Record parsed_args : Type := {
  plan_uuid : pyval;
  long : bool;
}.

Section Command.

Variable respond : list request -> request -> result pyval.
Variable plans : Manager.
Variable columns : Type.
Variable dict2columns : gmap string pyval -> columns.

Definition take_action (parsed_args : parsed_args) : M world columns :=
  do plan <- plans_get respond plans (plan_uuid parsed_args);
  do plan_dict <- lift (to_dict plan);
  do plan_dict <-
    (if negb (long parsed_args) then
       let plan_dict :=
         if decide (is_Some (plan_dict !! "parameters"))
         then <["parameters" := PStr suppression_notice]> plan_dict
         else plan_dict in
       do roles <- lift (getattr plan "roles");
       do names <- lift (role_names roles);
       do text <- lift (py_join ", " names);
       ret (<["roles" := PStr text]> plan_dict)
     else ret plan_dict);
  ret (dict2columns plan_dict).

End Command.

End ShowManagementPlan.

End Plan.

(** ** [tuskarclient/common/formatting.py] *)

Module Formatting.
Import Base.

(** The line feed character, written [\n] in the source. *)
Definition newline : string := String "010"%char EmptyString.

(** The order [sorted] puts the items of a dictionary in: by key. Keys of a
    dictionary are distinct, so values are never compared. *)
Definition key_le (a b : string * pyval) : Prop :=
  String.leb a.1 b.1 = true.

#[export] Instance key_le_dec : RelDecision key_le.
Proof. intros a b. unfold key_le. apply _. Defined.

(** [sorted(attributes.items())] *)
Definition sorted_items (d : gmap string pyval) : list (string * pyval) :=
  merge_sort key_le (map_to_list d).

Section WithFormat.

(** How [format] renders a value in a replacement field such as [{1}]
    (Python's [str] of the value). *)
Variable format_value : pyval -> string.

(** One formatted key and value pair: the format string of
    [attributes_formatter] applied to [(k, v)]. *)
Definition attribute_line (kv : string * pyval) : string :=
  kv.1 ++ "=" ++ format_value kv.2 ++ newline.

(** A value without an [items] method makes the call raise
    [AttributeError]. *)
Definition attributes_formatter (attributes : pyval) : result string :=
  match attributes with
  | PDict d => Return (str_join "" (attribute_line <$> sorted_items d))
  | _ => Raise (AttributeError "items")
  end.

Definition parameters_v2_formatter (parameters : pyval) : result string :=
  match py_iter parameters with
  | Raise e => Raise e
  | Return ps =>
      match map_result attributes_formatter ps with
      | Raise e => Raise e
      | Return texts => Return (str_join newline texts)
      end
  end.

End WithFormat.

End Formatting.

(** ** [tuskarclient/osc/v2/plan.py]: [filtered_plan_dict] *)

Module PlanFilter.
Import Base Formatting.

(** [s.endswith(suffix)] *)
Definition str_endswith (suffix s : string) : bool :=
  let n := String.length s in
  let m := String.length suffix in
  Nat.leb m n && String.eqb (String.substring (n - m) m s) suffix.

(** [param['name'].endswith('::count')]: the subscript raises on a value
    that is not a dictionary or has no such key, and [endswith] exists on
    strings only. *)
Definition is_count_parameter (param : pyval) : result bool :=
  match py_getitem param "name" with
  | Raise e => Raise e
  | Return (PStr s) => Return (str_endswith "::count" s)
  | Return _ => Raise (AttributeError "endswith")
  end.

(** [[x for x in l if p(x)]] where [p] may raise. *)
Fixpoint filter_result {A} (p : A -> result bool) (l : list A)
  : result (list A) :=
  match l with
  | [] => Return []
  | x :: rest =>
      match p x with
      | Raise e => Raise e
      | Return b =>
          match filter_result p rest with
          | Raise e => Raise e
          | Return kept => Return (if b then x :: kept else kept)
          end
      end
  end.

Section WithFormat.

Variable format_value : pyval -> string.

(** The dictionary is updated in place and returned; the model returns the
    updated dictionary, or the exception raised on the way. *)
Definition filtered_plan_dict (plan_dict : gmap string pyval)
  : result (gmap string pyval) :=
  match plan_dict !! "parameters", plan_dict !! "roles" with
  | Some parameters, Some _ =>
      match py_iter parameters with
      | Raise e => Raise e
      | Return params =>
          match filter_result is_count_parameter params with
          | Raise e => Raise e
          | Return kept =>
              let plan_dict := <["parameters" := PList kept]> plan_dict in
              match parameters_v2_formatter format_value
                      (dict_get plan_dict "parameters") with
              | Raise e => Raise e
              | Return text =>
                  let plan_dict :=
                    <["parameters" := PStr text]> plan_dict in
                  match parameters_v2_formatter format_value
                          (dict_get plan_dict "roles") with
                  | Raise e => Raise e
                  | Return roles_text =>
                      Return (<["roles" := PStr roles_text]> plan_dict)
                  end
              end
          end
      end
  | _, _ => Return plan_dict
  end.

End WithFormat.

End PlanFilter.

(** ** [tuskarclient/shell.py]: [TuskarShell._ensure_auth_info] *)

Module Shell.

(** The authentication options of the parsed command line. *)
Record args : Type := {
  os_auth_token : pyval;
  os_username : pyval;
  os_password : pyval;
  os_tenant_id : pyval;
  os_tenant_name : pyval;
  os_auth_url : pyval;
  tuskar_url : pyval;
}.

(** The method returns normally or raises [exc.CommandError]. *)
Inductive checked : Type :=
| Passed
| CommandError (msg : string).

Definition _ensure_auth_info (a : args) : checked :=
  if negb (truthy (os_auth_token a)) then
    if negb (truthy (os_username a)) then
      CommandError ("You must provide username via either "
                    ++ "--os-username or env[OS_USERNAME]")
    else if negb (truthy (os_password a)) then
      CommandError ("You must provide password via either "
                    ++ "--os-password or env[OS_PASSWORD]")
    else if negb (truthy (os_tenant_id a))
            && negb (truthy (os_tenant_name a)) then
      CommandError ("You must provide tenant via either "
                    ++ "--os-tenant-name or --os-tenant-id or "
                    ++ "env[OS_TENANT_NAME] or "
                    ++ "env[OS_TENANT_ID]")
    else if negb (truthy (os_auth_url a)) then
      CommandError ("You must provide auth URL via either "
                    ++ "--os-auth-url or env[OS_AUTH_URL]")
    else Passed
  else
    if negb (truthy (tuskar_url a)) && negb (truthy (os_auth_url a)) then
      CommandError ("You must provide either "
                    ++ "--tuskar-url or --os-auth-url or "
                    ++ "env[TUSKAR_URL] or env[OS_AUTH_URL]")
    else Passed.

End Shell.

(** ** Concrete scenarios *)

Module Scenario.
Import Auth Base.

(** [self.opts] holds every name of [opt_names]; a value that was not
    supplied is [None] for the token and the empty string for the rest. *)
Definition make_opts (username password tenant_id tenant_name : string)
    (token : pyval) (auth_url endpoint : string) : gmap string pyval :=
  <["username" := PStr username]> (<["password" := PStr password]>
  (<["tenant_id" := PStr tenant_id]> (<["tenant_name" := PStr tenant_name]>
  (<["token" := token]> (<["auth_url" := PStr auth_url]>
  (<["endpoint" := PStr endpoint]> ∅)))))).

Definition token_opts : gmap string pyval :=
  make_opts "" "" "" "" (PStr "b5a1f0") "" "http://tuskar.example:8585".

Definition token_only_opts : gmap string pyval :=
  make_opts "" "" "" "" (PStr "b5a1f0") "" "".

Definition password_opts : gmap string pyval :=
  make_opts "admin" "secret" "" "admin" PNone
            "http://keystone.example:5000/v2.0" "".

Definition no_tenant_opts : gmap string pyval :=
  make_opts "admin" "secret" "" "" PNone "" "".

Definition no_auth_url_opts : gmap string pyval :=
  make_opts "admin" "secret" "" "admin" PNone "" "".

Definition fresh_plugin (o : gmap string pyval) : plugin :=
  {| opts := o; _ksclient := None; ks_trace := [] |}.

(** A service catalog with one entry: the public URL of the management
    service. *)
Definition demo_catalog (service_type endpoint_type : pyval) : result pyval :=
  match service_type, endpoint_type with
  | PStr st, PStr et =>
      if String.eqb st "management" && String.eqb et "publicURL"
      then Return (PStr "http://tuskar.example:8585")
      else Raise (ServiceError "EndpointNotFound")
  | _, _ => Raise (ServiceError "EndpointNotFound")
  end.

Definition demo_ksclient : KsClient :=
  {| auth_token := PStr "0c9d7e"; url_for := demo_catalog |}.

Definition demo_identity (kw : ks_kwargs) : result KsClient :=
  Return demo_ksclient.

Definition empty_world : world := {| http_log := []; stderr := [] |}.

Definition plan_class : rclass :=
  {| class_repr := "<class 'tuskarclient.v2.plans.Plan'>" |}.

(** A plan manager following the {collection}/{id} convention, for ids that
    are strings. *)
Definition plans_manager : Manager :=
  {| resource_class := Some plan_class;
     _path := fun id =>
       match id with
       | PStr s => if String.eqb s "" then Return "/v2/plans"
                   else Return ("/v2/plans/" ++ s)
       | _ => Return "/v2/plans"
       end |}.

Definition compute_role : pyval :=
  PDict (<["name" := PStr "Compute"]> (<["uuid" := PStr "r1"]> ∅)).

Definition plan_doc_of (name : string) : gmap string pyval :=
  <["uuid" := PStr "u1"]> (<["name" := PStr name]>
  (<["description" := PStr "desc"]> (<["roles" := PList [compute_role]]>
  (<["parameters" := PList [PDict (<["name" := PStr "compute-1::count"]>
                                     (<["value" := PStr "1"]> ∅))]]> ∅)))).

Definition plan_doc : gmap string pyval := plan_doc_of "myplan".

(** A service that knows the plan [u1] and answers a GET or PUT on it with
    the plan document. *)
Definition plan_service (history : list request) (rq : request)
  : result pyval :=
  if String.eqb (req_url rq) "/v2/plans/u1" then
    match req_method rq with
    | GET | PUT => Return (PDict plan_doc)
    | _ => Return PNone
    end
  else Raise (ServiceError "HTTPNotFound").

(** A service that answers every request with an empty JSON object. *)
Definition quiet_service (history : list request) (rq : request)
  : result pyval :=
  Return (PDict ∅).

(** A service whose answer to every request is a document with a list of
    plans, one of whose elements is null, and an empty list of roles. *)
Definition listing_body : pyval :=
  PDict (<["plans" := PList [PDict (plan_doc_of "first"); PNone;
                             PDict (plan_doc_of "second")]]>
         (<["roles" := PList []]> ∅)).

Definition listing_service (history : list request) (rq : request)
  : result pyval :=
  Return listing_body.

(** [plan set u1] with none of -P, -F and -S. *)
Definition set_nothing : Plan.SetManagementPlan.parsed_args :=
  {| Plan.SetManagementPlan.plan_uuid := PStr "u1";
     Plan.SetManagementPlan.parameters := None;
     Plan.SetManagementPlan.flavors := None;
     Plan.SetManagementPlan.scales := None |}.

(** [plan set u1 -P compute-1::count=2 -F Compute=baremetal] *)
Definition set_count_and_flavor : Plan.SetManagementPlan.parsed_args :=
  {| Plan.SetManagementPlan.plan_uuid := PStr "u1";
     Plan.SetManagementPlan.parameters := Some ["compute-1::count=2"];
     Plan.SetManagementPlan.flavors := Some ["Compute=baremetal"];
     Plan.SetManagementPlan.scales := None |}.

(** [plan show u1] *)
Definition show_u1 : Plan.ShowManagementPlan.parsed_args :=
  {| Plan.ShowManagementPlan.plan_uuid := PStr "u1";
     Plan.ShowManagementPlan.long := false |}.

(** A column formatter that hands the dictionary on as it is. *)
Definition plain_columns (d : gmap string pyval) : gmap string pyval := d.

End Scenario.

(** ** [tuskarclient/tests/utils.py]: [CommandOutputMatches] *)

Module TestUtils.

(** What the three mismatch classes store in [self.type]. *)
Definition type_label (type : string) : string :=
  if String.eqb type "error" then "Error output" else "Output".

(** The mismatch objects [match] can return, with the attributes their
    constructors set. *)
Inductive mismatch : Type :=
| CommandOutputMismatch (type out out_str : string)
| CommandOutputMissingMismatch (type out out_inc : string)
| CommandOutputExtraMismatch (type out out_exc : string).

(** A [CommandOutputMatches] instance after [__init__], which replaces a
    list that was not given (or is empty) by the empty list. *)
Record CommandOutputMatches : Type := {
  out_str : option string;
  out_inc : list string;
  out_exc : list string;
  err_str : option string;
  err_inc : list string;
  err_exc : list string;
  return_code : option Z;
}.

Definition match_output (output : string) (expected_output : option string)
    (type : string) : option mismatch :=
  match expected_output with
  | Some expected =>
      if negb (String.eqb expected output)
      then Some (CommandOutputMismatch (type_label type) output expected)
      else None
  | None => None
  end.

Fixpoint match_includes (output : string) (includes : list string)
    (type : string) : option mismatch :=
  match includes with
  | [] => None
  | part :: rest =>
      if negb (str_contains part output)
      then Some (CommandOutputMissingMismatch (type_label type) output part)
      else match_includes output rest type
  end.

Fixpoint match_excludes (output : string) (excludes : list string)
    (type : string) : option mismatch :=
  match excludes with
  | [] => None
  | part :: rest =>
      if str_contains part output
      then Some (CommandOutputExtraMismatch (type_label type) output part)
      else match_excludes output rest type
  end.

(** [next((item for item in errors if item is not None), None)] *)
Fixpoint first_not_None {A} (errors : list (option A)) : option A :=
  match errors with
  | [] => None
  | Some item :: _ => Some item
  | None :: rest => first_not_None rest
  end.

(** [match(self, outputs)], where [outputs] holds the standard output and
    the standard error of a command. The method is called [match_] here,
    [match] being a keyword. *)
Definition match_ (self : CommandOutputMatches) (outputs : string * string)
  : option mismatch :=
  let out := outputs.1 in
  let err := outputs.2 in
  first_not_None
    [match_output out (out_str self) "output";
     match_output err (err_str self) "error";
     match_includes out (out_inc self) "output";
     match_excludes out (out_exc self) "output";
     match_includes err (err_inc self) "error";
     match_excludes err (err_exc self) "error"].

(** *** [create_test_dictionary_pair] *)

(** [key + '_value'] *)
Definition value_of (key : string) : pyval := PStr (key ++ "_value").

(** The first loop: every key of [default_keys | redundant_keys] that is
    not a missing key gets its value. A set is run through in some order,
    here the order of [elements]. *)
Definition passed_dictionary_of (default_keys redundant_keys missing_keys
    : gset string) : gmap string pyval :=
  foldl (fun d key => if decide (key ∈ missing_keys) then d
                      else <[key := value_of key]> d)
        ∅ (elements (default_keys ∪ redundant_keys)).

(** [for key in keys: del d[key]]; [del] raises [KeyError] on a key the
    dictionary does not have. *)
Fixpoint delete_keys (keys : list string) (d : gmap string pyval)
  : result (gmap string pyval) :=
  match keys with
  | [] => Return d
  | key :: rest =>
      match d !! key with
      | Some _ => delete_keys rest (delete key d)
      | None => Raise (KeyError key)
      end
  end.

(** One round of the last loop: a key of the dictionary moves to its new
    name. *)
Definition translate (d : gmap string pyval) (translation : string * string)
  : gmap string pyval :=
  match d !! translation.1 with
  | Some v => delete translation.1 (<[translation.2 := v]> d)
  | None => d
  end.

(** The keyword arguments are the translations, in the order in which the
    dictionary of keyword arguments is run through. *)
Definition create_test_dictionary_pair
    (default_keys redundant_keys missing_keys : gset string)
    (translations : list (string * string))
  : result (gmap string pyval * gmap string pyval) :=
  let passed_dictionary :=
    passed_dictionary_of default_keys redundant_keys missing_keys in
  match delete_keys (elements redundant_keys) passed_dictionary with
  | Raise e => Raise e
  | Return called_dictionary =>
      let called_dictionary :=
        foldl (fun d key => <[key := PNone]> d) called_dictionary
              (elements missing_keys) in
      let called_dictionary :=
        foldl translate called_dictionary translations in
      Return (passed_dictionary, called_dictionary)
  end.

End TestUtils.

(** ** Concrete cases for the further properties *)

Module Cases.
Import Auth Base.

Definition post_request (url : string) (body : pyval) : request :=
  {| req_method := POST; req_url := url; req_body := Some body |}.

Definition delete_request (url : string) : request :=
  {| req_method := DELETE; req_url := url; req_body := None |}.

(** Complete password credentials, with the token given as an empty
    string. *)
Definition blank_token_opts : gmap string pyval :=
  Scenario.make_opts "admin" "secret" "" "admin" (PStr "")
                     "http://keystone.example:5000/v2.0" "".

(** An identity service that rejects every attempt. *)
Definition failing_identity (kw : ks_kwargs) : result KsClient :=
  Raise (ServiceError "Unauthorized").

(** A plugin holding a token but no endpoint, on which a keystone client
    has been cached. *)
Definition cached_plugin : plugin :=
  {| opts := Scenario.token_only_opts;
     _ksclient := Some Scenario.demo_ksclient;
     ks_trace := [] |}.

(** A service that cannot be reached. *)
Definition down_service (history : list request) (rq : request)
  : result pyval :=
  Raise (ServiceError "ConnectionRefused").

(** A service that answers every request with a null body. *)
Definition null_service (history : list request) (rq : request)
  : result pyval :=
  Return PNone.

(** Keyword arguments asking for the first element of the list of plans. *)
Definition first_plan_kwargs : list_kwargs :=
  {| kw_response_key := Some "plans"; kw_obj_class := None;
     kw_expect_single := Some false |}.

(** A service that knows the plan [u1] and answers a PUT on it with an
    empty body. *)
Definition silent_put_service (history : list request) (rq : request)
  : result pyval :=
  if String.eqb (req_url rq) "/v2/plans/u1" then
    match req_method rq with
    | GET => Return (PDict Scenario.plan_doc)
    | _ => Return PNone
    end
  else Raise (ServiceError "HTTPNotFound").

(** A service that knows the plan [u1] and answers a PUT on it with the
    plan under a new name. *)
Definition updating_service (history : list request) (rq : request)
  : result pyval :=
  if String.eqb (req_url rq) "/v2/plans/u1" then
    match req_method rq with
    | GET => Return (PDict Scenario.plan_doc)
    | PUT => Return (PDict (Scenario.plan_doc_of "updated"))
    | _ => Return PNone
    end
  else Raise (ServiceError "HTTPNotFound").

(** The patch that [Scenario.set_count_and_flavor] asks for. *)
Definition count_and_flavor_patch : list pyval :=
  [Utils.patch_op "add" "parameters/compute-1::count" "2";
   Utils.patch_op "replace" "roles/r1/Flavor" "baremetal"].

(** [plan set u1 -F Storage=baremetal], naming a role the plan lacks. *)
Definition set_unknown_role : Plan.SetManagementPlan.parsed_args :=
  {| Plan.SetManagementPlan.plan_uuid := PStr "u1";
     Plan.SetManagementPlan.parameters := Some ["compute-1::count=2"];
     Plan.SetManagementPlan.flavors := Some ["Storage=baremetal"];
     Plan.SetManagementPlan.scales := None |}.

(** [plan show u1 --long] *)
Definition show_u1_long : Plan.ShowManagementPlan.parsed_args :=
  {| Plan.ShowManagementPlan.plan_uuid := PStr "u1";
     Plan.ShowManagementPlan.long := true |}.

(** [plan show u9] and [plan set u9 -P compute-1::count=2], for a plan the
    service does not have. *)
Definition show_u9 : Plan.ShowManagementPlan.parsed_args :=
  {| Plan.ShowManagementPlan.plan_uuid := PStr "u9";
     Plan.ShowManagementPlan.long := false |}.

Definition set_u9 : Plan.SetManagementPlan.parsed_args :=
  {| Plan.SetManagementPlan.plan_uuid := PStr "u9";
     Plan.SetManagementPlan.parameters := Some ["compute-1::count=2"];
     Plan.SetManagementPlan.flavors := None;
     Plan.SetManagementPlan.scales := None |}.

(** [str] on scalar values: a string is itself, an integer is written in
    decimal. The cases format scalar values only; the text Python gives a
    nested array or object is not reproduced, such a value is shown by its
    kind. *)
Definition str_of (v : pyval) : string :=
  match v with
  | PStr s => s
  | PNone => "None"
  | PBool true => "True"
  | PBool false => "False"
  | PInt n => pretty n
  | PList _ => "<list>"
  | PDict _ => "<dict>"
  end.

Definition count_parameter : pyval :=
  PDict (<["name" := PStr "compute-1::count"]> (<["value" := PStr "1"]> ∅)).

Definition image_parameter : pyval :=
  PDict (<["name" := PStr "compute-1::image"]>
         (<["value" := PStr "overcloud"]> ∅)).

(** A plan document with a scale count and another parameter. *)
Definition two_parameter_plan : gmap string pyval :=
  <["uuid" := PStr "u1"]> (<["name" := PStr "myplan"]>
  (<["roles" := PList [Scenario.compute_role]]>
  (<["parameters" := PList [count_parameter; image_parameter]]> ∅))).

(** What [filtered_plan_dict] makes of [two_parameter_plan]. *)
Definition filtered_two_parameter_plan : gmap string pyval :=
  <["roles" := PStr ("name=Compute" ++ Formatting.newline
                     ++ "uuid=r1" ++ Formatting.newline)]>
  (<["parameters" := PStr ("name=compute-1::count" ++ Formatting.newline
                           ++ "value=1" ++ Formatting.newline)]>
   two_parameter_plan).

(** A plan document without a [roles] entry. *)
Definition roleless_plan : gmap string pyval :=
  <["uuid" := PStr "u1"]>
  (<["parameters" := PList [count_parameter; image_parameter]]> ∅).

(** A plan with two roles, and a service that knows it as [u2]. *)
Definition controller_role : pyval :=
  PDict (<["name" := PStr "Controller"]> (<["uuid" := PStr "r2"]> ∅)).

Definition two_role_plan : gmap string pyval :=
  <["uuid" := PStr "u2"]> (<["name" := PStr "overcloud"]>
  (<["roles" := PList [Scenario.compute_role; controller_role]]>
  (<["parameters" := PList [count_parameter; image_parameter]]> ∅))).

Definition two_role_service (history : list request) (rq : request)
  : result pyval :=
  if String.eqb (req_url rq) "/v2/plans/u2" then Return (PDict two_role_plan)
  else Raise (ServiceError "HTTPNotFound").

(** The command line options matching [Scenario.password_opts]. *)
Definition password_args : Shell.args :=
  {| Shell.os_auth_token := PNone;
     Shell.os_username := PStr "admin";
     Shell.os_password := PStr "secret";
     Shell.os_tenant_id := PStr "";
     Shell.os_tenant_name := PStr "admin";
     Shell.os_auth_url := PStr "http://keystone.example:5000/v2.0";
     Shell.tuskar_url := PStr "" |}.

(** A matcher asking for an exact error output and for two pieces of text
    in the standard output, and forbidding a third. *)
Definition plan_matcher : TestUtils.CommandOutputMatches :=
  {| TestUtils.out_str := None;
     TestUtils.out_inc := ["uuid"; "myplan"];
     TestUtils.out_exc := ["Traceback"];
     TestUtils.err_str := Some "";
     TestUtils.err_inc := [];
     TestUtils.err_exc := [];
     TestUtils.return_code := Some 0%Z |}.

End Cases.

(** * Properties *)

Import Auth Base.

Arguments dict_get : simpl never.

Lemma truthy_not_None v : truthy v = true -> is_None v = false.
Proof. by destruct v. Qed.

(** ** Credential resolution *)

(** C1. When [token] and [endpoint] are both set (present with a truthy
    value, which is the test the code applies), resolution returns exactly
    that pair and leaves the plugin as it was: no keystone client is
    created and the trace of identity-service interactions does not grow.
    Running it again gives the same pair and the same state. *)
Theorem token_mode_resolution ks_Client (self : plugin) et st :
  truthy (dict_get (opts self) "token") = true ->
  truthy (dict_get (opts self) "endpoint") = true ->
  let pair := (dict_get (opts self) "token", dict_get (opts self) "endpoint") in
  resolve ks_Client et st self = (Return pair, self) /\
  ks_trace (snd (resolve ks_Client et st self)) = ks_trace self /\
  (do_ resolve ks_Client et st; resolve ks_Client et st) self
    = (Return pair, self).
Proof.
  intros Ht He pair.
  assert (Hr : resolve ks_Client et st self = (Return pair, self)).
  { unfold resolve, bind, _do_authenticate, token_and_endpoint.
    rewrite (truthy_not_None _ Ht). cbn. by rewrite Ht, He. }
  split; [exact Hr|]. split; [by rewrite Hr|].
  unfold bind at 1. by rewrite Hr.
Qed.

Lemma token_mode_resolution_witness :
  let self := Scenario.fresh_plugin Scenario.token_opts in
  let r := resolve Scenario.demo_identity (PStr "publicURL") PNone in
  r self = (Return (PStr "b5a1f0", PStr "http://tuskar.example:8585"), self) /\
  ks_trace (snd (r self)) = [] /\
  (do_ r; r) self
    = (Return (PStr "b5a1f0", PStr "http://tuskar.example:8585"), self).
Proof.
  exact (token_mode_resolution Scenario.demo_identity
           (Scenario.fresh_plugin Scenario.token_opts) (PStr "publicURL") PNone
           eq_refl eq_refl).
Defined.

(** C10. A token without an endpoint, and no keystone client cached on the
    plugin: [token_and_endpoint] returns [(None, None)], on its own and when
    preceded by [_do_authenticate]; the plugin is left as it was. *)
Theorem token_without_endpoint ks_Client (self : plugin) et st :
  truthy (dict_get (opts self) "token") = true ->
  truthy (dict_get (opts self) "endpoint") = false ->
  _ksclient self = None ->
  token_and_endpoint et st self = (Return (PNone, PNone), self) /\
  resolve ks_Client et st self = (Return (PNone, PNone), self).
Proof.
  intros Ht He Hk.
  assert (Hr : token_and_endpoint et st self = (Return (PNone, PNone), self)).
  { unfold token_and_endpoint. by rewrite Ht, He, Hk. }
  split; [exact Hr|].
  unfold resolve, bind, _do_authenticate. rewrite (truthy_not_None _ Ht). cbn.
  exact Hr.
Qed.

Lemma token_without_endpoint_witness :
  let self := Scenario.fresh_plugin Scenario.token_only_opts in
  token_and_endpoint (PStr "publicURL") PNone self
    = (Return (PNone, PNone), self) /\
  resolve Scenario.demo_identity (PStr "publicURL") PNone self
    = (Return (PNone, PNone), self).
Proof.
  exact (token_without_endpoint Scenario.demo_identity
           (Scenario.fresh_plugin Scenario.token_only_opts)
           (PStr "publicURL") PNone eq_refl eq_refl eq_refl).
Defined.

(** C2, as stated, fails: with the service type left unspecified the code
    looks the catalog up under service type "management" and finds the
    endpoint, whereas a lookup keyed by the service type as given, with
    "management" as the default endpoint type, finds none. *)
Lemma password_endpoint_counterexample :
  let self := Scenario.fresh_plugin Scenario.password_opts in
  dict_get (opts self) "token" = PNone /\
  endpoint_of (resolve Scenario.demo_identity (PStr "publicURL") PNone self)
    = Return (PStr "http://tuskar.example:8585") /\
  endpoint_of (resolve Scenario.demo_identity (PStr "publicURL") PNone self)
    <> spec_password_endpoint (opts self) Scenario.demo_ksclient
         (PStr "publicURL") PNone.
Proof. vm_compute. repeat split; discriminate. Qed.

(** C2, amended. In password mode ([token] is [None]) with the identity
    service handing out client [ks], resolution returns the client's token
    and, as endpoint, the explicit [endpoint] option when that is set, and
    otherwise the catalog entry for (service_type, endpoint_type) where it is
    the service type that defaults to "management"; the endpoint type is
    passed on as given. An error of the catalog lookup propagates. *)
Theorem password_mode_resolution ks_Client (self : plugin) ks et st :
  dict_get (opts self) "token" = PNone ->
  ks_Client (ks_kwargs_of (opts self)) = Return ks ->
  fst (resolve ks_Client et st self) =
    (if truthy (dict_get (opts self) "endpoint")
     then Return (auth_token ks, dict_get (opts self) "endpoint")
     else match url_for ks (py_or st (PStr "management")) et with
          | Return e => Return (auth_token ks, e)
          | Raise e => Raise e
          end).
Proof.
  intros Ht Hks.
  unfold resolve, bind, _do_authenticate, token_and_endpoint, lift.
  rewrite Ht. cbn. rewrite Hks. cbn. rewrite Ht. cbn.
  destruct (truthy (dict_get (opts self) "endpoint")); cbn; [done|].
  by destruct (url_for ks _ et).
Qed.

Lemma password_mode_resolution_witness :
  fst (resolve Scenario.demo_identity (PStr "publicURL") PNone
         (Scenario.fresh_plugin Scenario.password_opts))
    = Return (PStr "0c9d7e", PStr "http://tuskar.example:8585").
Proof.
  exact (password_mode_resolution Scenario.demo_identity
           (Scenario.fresh_plugin Scenario.password_opts) Scenario.demo_ksclient
           (PStr "publicURL") PNone eq_refl eq_refl).
Defined.

(** ** Sufficiency check *)

(** C3, as stated, fails: with no token, no [auth_url] and no tenant either,
    the check stops at the tenant test, and the error it raises carries the
    text "tenant_id or tenant_name", which does not name [auth_url]. *)
Lemma missing_auth_url_counterexample :
  truthy (dict_get Scenario.no_tenant_opts "token") = false /\
  truthy (dict_get Scenario.no_tenant_opts "auth_url") = false /\
  sufficient_options Scenario.no_tenant_opts
    = Raise (AuthPluginOptionsMissing (PStr "tenant_id or tenant_name")) /\
  ~ fails_naming (sufficient_options Scenario.no_tenant_opts) "auth_url".
Proof.
  repeat split; try reflexivity.
  intros (names & Hraise & Hin).
  vm_compute in Hraise. injection Hraise as <-.
  vm_compute in Hin. discriminate.
Qed.

(** C3, amended. With no token set, no [auth_url] set, and at least one of
    [tenant_id] and [tenant_name] set, the check fails with a missing-options
    error whose list of missing fields includes [auth_url]. *)
Theorem missing_auth_url (o : gmap string pyval) :
  truthy (dict_get o "token") = false ->
  truthy (dict_get o "auth_url") = false ->
  truthy (dict_get o "tenant_id") = true \/
    truthy (dict_get o "tenant_name") = true ->
  exists missing,
    sufficient_options o
      = Raise (AuthPluginOptionsMissing (PList (PStr <$> missing))) /\
    In "auth_url" missing /\
    fails_naming (sufficient_options o) "auth_url".
Proof.
  intros Ht Ha Hten.
  assert (Hany : existsb truthy (dict_get o <$> ["tenant_id"; "tenant_name"])
                 = true).
  { cbn. destruct Hten as [-> | ->]; [done|]. by rewrite orb_true_r. }
  exists (List.filter (fun opt => negb (truthy (dict_get o opt)))
                      ["username"; "password"; "auth_url"]).
  unfold fails_naming, sufficient_options. rewrite Ht, Hany. cbn.
  rewrite Ha. cbn.
  destruct (truthy (dict_get o "username")),
           (truthy (dict_get o "password")); cbn;
    (split; [reflexivity|]); (split; [tauto|]);
    eexists; (split; [reflexivity|]); reflexivity.
Qed.

Lemma missing_auth_url_witness :
  exists missing,
    sufficient_options Scenario.no_auth_url_opts
      = Raise (AuthPluginOptionsMissing (PList (PStr <$> missing))) /\
    In "auth_url" missing /\
    fails_naming (sufficient_options Scenario.no_auth_url_opts) "auth_url".
Proof.
  exact (missing_auth_url Scenario.no_auth_url_opts eq_refl eq_refl
           (or_intror eq_refl)).
Defined.

(** C4. With no token set and neither [tenant_id] nor [tenant_name] set, the
    check fails with the tenant-alternative error, whatever [username],
    [password] and [auth_url] hold: the tenant test comes before the test of
    those three. *)
Theorem missing_tenant (o : gmap string pyval) :
  truthy (dict_get o "token") = false ->
  truthy (dict_get o "tenant_id") = false ->
  truthy (dict_get o "tenant_name") = false ->
  sufficient_options o
    = Raise (AuthPluginOptionsMissing (PStr "tenant_id or tenant_name")).
Proof.
  intros Ht Hid Hname. unfold sufficient_options. rewrite Ht. cbn.
  by rewrite Hid, Hname.
Qed.

Lemma missing_tenant_witness :
  sufficient_options Scenario.no_tenant_opts
    = Raise (AuthPluginOptionsMissing (PStr "tenant_id or tenant_name")).
Proof.
  exact (missing_tenant Scenario.no_tenant_opts eq_refl eq_refl eq_refl).
Defined.

(** ** Generic manager *)

(** C5. A GET answered with a body whose data (the body itself, or its
    entry under the response key) is falsy, or lacks the response key
    altogether, makes [_get] return [None]: no exception escapes. The data
    is wrapped as a single element, which is what [_get] asks for unless told
    otherwise. This holds for every manager, the abstract base included. *)
Theorem get_nothing respond (self : Manager) url kwargs w body :
  default true (kw_expect_single kwargs) = true ->
  respond (http_log w) (get_request url) = Return body ->
  response_data (kw_response_key kwargs) body = Return None \/
    (exists data,
        response_data (kw_response_key kwargs) body = Return (Some data) /\
        truthy data = false) ->
  _get respond self url kwargs w = (Return None, logged w (get_request url)).
Proof.
  intros Hsingle Hbody Hdata.
  cbv beta zeta delta [_get try_except bind _list json_request send lift].
  fold (get_request url). rewrite Hsingle, Hbody.
  destruct Hdata as [-> | (data & -> & Hfalsy)]; cbn; [done|].
  by rewrite Hfalsy.
Qed.

Lemma get_nothing_witness :
  _get Scenario.quiet_service base_Manager "/v2/plans/u9" no_kwargs
       Scenario.empty_world
    = (Return None, logged Scenario.empty_world (get_request "/v2/plans/u9")).
Proof.
  exact (get_nothing Scenario.quiet_service base_Manager "/v2/plans/u9"
           no_kwargs Scenario.empty_world (PDict ∅) eq_refl eq_refl
           (or_intror (ex_intro _ (PDict ∅) (conj eq_refl eq_refl)))).
Defined.

(** C6. For every manager and every falsy id, [_single_path] raises
    [ValueError] without consulting [_path], and a delete built on it raises
    the same error and leaves the world untouched: no request is issued. *)
Theorem single_path_requires_id respond (self : Manager) id w :
  truthy id = false ->
  let err := ValueError (format_class (resource_class self)
                           ++ " id is required.") in
  _single_path self id = Raise err /\
  delete respond self id w = (Raise err, w).
Proof.
  intros Hid err.
  assert (Hp : _single_path self id = Raise err).
  { unfold _single_path. by rewrite Hid. }
  split; [exact Hp|].
  cbv beta zeta delta [delete bind lift]. by rewrite Hp.
Qed.

Lemma single_path_requires_id_witness :
  _single_path Scenario.plans_manager (PStr "")
    = Raise (ValueError
               "<class 'tuskarclient.v2.plans.Plan'> id is required.") /\
  delete Scenario.plan_service Scenario.plans_manager (PStr "")
         Scenario.empty_world
    = (Raise (ValueError
                "<class 'tuskarclient.v2.plans.Plan'> id is required."),
       Scenario.empty_world).
Proof.
  exact (single_path_requires_id Scenario.plan_service Scenario.plans_manager
           (PStr "") Scenario.empty_world eq_refl).
Defined.

Lemma map_result_new_resource cls (self : Manager) l :
  map_result (fun res => new_resource (Some cls) self res true) l
  = Return ((fun res => {| manager := self; res_class := cls; _info := res;
                           _loaded := true |}) <$> l).
Proof.
  induction l as [|x l IH]; [done|].
  cbn [map_result]. by rewrite IH.
Qed.

(** C7. Let a GET be answered with [body].
    - If the data of the body is an array, [_list] returns one resource per
      truthy element, built from that element with the class in force, in
      the order of the array; falsy elements are skipped.
    - If the data is the empty array, [_list] returns the empty list, with
      or without a resource class.
    - If a response key is given and the body is an object without that
      key, [_list] returns the empty list. *)
Theorem list_resources respond (self : Manager) url w body :
  respond (http_log w) (get_request url) = Return body ->
  (forall response_key obj_class l cls,
      response_data response_key body = Return (Some (PList l)) ->
      class_for self obj_class = Some cls ->
      _list respond self url response_key obj_class false w
      = (Return ((fun res => {| manager := self; res_class := cls;
                                _info := res; _loaded := true |})
                   <$> List.filter truthy l),
         logged w (get_request url))) /\
  (forall response_key obj_class expect_single,
      response_data response_key body = Return (Some (PList [])) ->
      _list respond self url response_key obj_class expect_single w
      = (Return [], logged w (get_request url))) /\
  (forall key d obj_class expect_single,
      key <> "" -> body = PDict d -> d !! key = None ->
      _list respond self url (Some key) obj_class expect_single w
      = (Return [], logged w (get_request url))).
Proof.
  intros Hbody.
  assert (Hstart : forall rk oc es,
    _list respond self url rk oc es w
    = (do data <- lift (response_data rk body);
       match data with
       | None => ret []
       | Some data =>
           do elements <- lift (if es then Return [data] else py_iter data);
           lift (map_result
                   (fun res => new_resource (class_for self oc) self res true)
                   (List.filter truthy elements))
       end) (logged w (get_request url))).
  { intros. unfold _list, json_request, send. fold (get_request url).
    unfold bind at 1. by rewrite Hbody. }
  repeat split.
  - intros rk oc l cls Hdata Hcls. rewrite Hstart.
    cbv beta zeta delta [bind lift]. rewrite Hdata.
    cbn [py_iter]. cbv beta iota.
    by rewrite Hcls, map_result_new_resource.
  - intros rk oc es Hdata. rewrite Hstart.
    cbv beta zeta delta [bind lift]. rewrite Hdata. by destruct es.
  - intros key d oc es Hkey -> Hnone. rewrite Hstart.
    cbv beta zeta iota delta [bind lift response_data truthy_key].
    apply String.eqb_neq in Hkey. rewrite Hkey. cbn. by rewrite Hnone.
Qed.

Lemma list_resources_witness :
  let ls := fun response_key expect_single =>
    fst (_list Scenario.listing_service Scenario.plans_manager "/v2/plans"
               response_key None expect_single Scenario.empty_world) in
  let plan := fun name =>
    {| manager := Scenario.plans_manager; res_class := Scenario.plan_class;
       _info := PDict (Scenario.plan_doc_of name); _loaded := true |} in
  ls (Some "plans") false = Return [plan "first"; plan "second"] /\
  ls (Some "roles") true = Return [] /\
  ls (Some "overclouds") false = Return [].
Proof.
  destruct (list_resources Scenario.listing_service Scenario.plans_manager
              "/v2/plans" Scenario.empty_world Scenario.listing_body eq_refl)
    as (Harray & Hempty & Habsent).
  split; [|split].
  - exact (f_equal fst
             (Harray (Some "plans") None
                [PDict (Scenario.plan_doc_of "first"); PNone;
                 PDict (Scenario.plan_doc_of "second")]
                Scenario.plan_class eq_refl eq_refl)).
  - exact (f_equal fst (Hempty (Some "roles") None true eq_refl)).
  - refine (f_equal fst (Habsent "overclouds" _ None false _ eq_refl eq_refl)).
    discriminate.
Defined.

(** ** Plan commands *)

Import Plan.

Lemma bind_return {S A B} (m : M S A) (k : A -> M S B) s a s' :
  m s = (Return a, s') -> bind m k s = k a s'.
Proof. unfold bind. by intros ->. Qed.

(** A GET on the single-resource path answered with a truthy document gives
    the resource wrapping that document. *)
Lemma plans_get_found respond (plans : Manager) uuid w url doc cls :
  _single_path plans uuid = Return url ->
  respond (http_log w) (get_request url) = Return doc ->
  truthy doc = true ->
  resource_class plans = Some cls ->
  plans_get respond plans uuid w
  = (Return (Some {| manager := plans; res_class := cls; _info := doc;
                     _loaded := true |}),
     logged w (get_request url)).
Proof.
  intros Hpath Hdoc Htruthy Hcls.
  unfold plans_get.
  rewrite (bind_return _ _ w url w) by (unfold lift; by rewrite Hpath).
  assert (Hlist : _list respond plans url None None true w
                  = (Return [{| manager := plans; res_class := cls;
                                _info := doc; _loaded := true |}],
                     logged w (get_request url))).
  { unfold _list.
    rewrite (bind_return _ _ w doc (logged w (get_request url)))
      by (unfold json_request, send; fold (get_request url); by rewrite Hdoc).
    cbn -[logged]. rewrite Htruthy. cbn -[logged]. by rewrite Hcls. }
  unfold _get, try_except. cbn [no_kwargs kw_response_key kw_obj_class
                                kw_expect_single default].
  by rewrite (bind_return _ _ _ _ _ Hlist).
Qed.

Lemma bind_lift {S A B} (r : result A) (k : A -> M S B) s a :
  r = Return a -> bind (lift r) k s = k a s.
Proof. by intros ->. Qed.

(** Run the pure step at the head of a command, given its outcome. *)
Ltac step H := rewrite (bind_lift _ _ _ _ H).

(** [plans_patch] sends exactly one PUT to the single-resource path,
    whatever the service answers. *)
Lemma plans_patch_world respond (plans : Manager) uuid patch w url :
  _single_path plans uuid = Return url ->
  snd (plans_patch respond plans uuid patch w)
  = logged w (put_request url (PList patch)).
Proof.
  intros Hpath. unfold plans_patch.
  rewrite (bind_lift _ _ w url Hpath).
  unfold _update, json_request, send, bind.
  fold (put_request url (PList patch)).
  destruct (respond (http_log w) (put_request url (PList patch))) as [body|e];
    [|done].
  destruct (truthy body); [|done].
  unfold lift. by destruct (new_resource _ _ _ _).
Qed.

(** Whatever follows a computation that changes the world no further keeps
    the world that computation left. *)
Lemma bind_pure_world {S A B} (m : M S A) (k : A -> M S B) s :
  (forall a s', snd (k a s') = s') -> snd (bind m k s) = snd (m s).
Proof.
  intros Hk. unfold bind. destruct (m s) as [[a|e] s']; [apply Hk|done].
Qed.

(** C8, as stated, fails: a plan set invoked with none of the -P, -F and -S
    options builds an empty patch; the command issues the GET, prints a
    warning and sends no PUT. *)
Lemma set_plan_counterexample :
  let w' := snd (SetManagementPlan.take_action
                   Scenario.plan_service Scenario.plans_manager _
                   Scenario.plain_columns
                   Utils.parameters_args_to_patch Utils.args_to_patch
                   Scenario.set_nothing Scenario.empty_world) in
  http_log w' = [get_request "/v2/plans/u1"] /\
  stderr w' = [no_update_warning] /\
  Forall (fun rq => req_method rq <> PUT) (http_log w').
Proof.
  vm_compute. repeat split. repeat constructor. discriminate.
Qed.

(** C8, amended. When the GET for the plan is answered with a plan document
    that has roles and the patch entries are built without error, the
    command issues that GET first and then: if at least one patch entry was
    built, one PUT of the whole patch to the same plan and nothing on
    standard error; if none was built, no further request and a warning on
    standard error. *)
Theorem set_plan_requests respond (plans : Manager) (columns : Type)
    (dict2columns : gmap string pyval -> columns)
    parameters_args_to_patch args_to_patch
    (parsed_args : SetManagementPlan.parsed_args) w url d cls roles
    p1 p2 p3 :
  _single_path plans (SetManagementPlan.plan_uuid parsed_args)
    = Return url ->
  respond (http_log w) (get_request url) = Return (PDict d) ->
  truthy (PDict d) = true ->
  resource_class plans = Some cls ->
  d !! "roles" = Some roles ->
  parameters_args_to_patch (SetManagementPlan.parameters parsed_args)
    = Return p1 ->
  args_to_patch (SetManagementPlan.flavors parsed_args) roles "Flavor"
    = Return p2 ->
  args_to_patch (SetManagementPlan.scales parsed_args) roles "count"
    = Return p3 ->
  let patch := (p1 ++ p2 ++ p3)%list in
  let w' := snd (SetManagementPlan.take_action respond plans columns
                   dict2columns parameters_args_to_patch args_to_patch
                   parsed_args w) in
  http_log w' = (http_log w ++ get_request url ::
                   match patch with
                   | [] => []
                   | _ :: _ => [put_request url (PList patch)]
                   end)%list /\
  stderr w' = (stderr w ++ match patch with
                           | [] => [no_update_warning]
                           | _ :: _ => []
                           end)%list.
Proof.
  intros Hpath Hdoc Htruthy Hcls Hroles Hp1 Hp2 Hp3 patch w'.
  subst w'. unfold SetManagementPlan.take_action.
  rewrite (bind_return _ _ _ _ _
             (plans_get_found respond plans _ w url _ cls
                Hpath Hdoc Htruthy Hcls)).
  set (plan := Some _).
  assert (Hattr : getattr plan "roles" = Return roles).
  { subst plan. cbn. by rewrite Hroles. }
  step Hattr. step Hp1. step Hp2. step Hp3.
  fold patch.
  rewrite bind_pure_world
    by (intros a s'; apply bind_pure_world; reflexivity).
  destruct patch as [|op patch'] eqn:Hpatch.
  - done.
  - cbn [length Nat.ltb Nat.leb]. rewrite <- Hpatch.
    rewrite (plans_patch_world respond plans _ patch _ url Hpath).
    cbn. split; [by rewrite <- app_assoc | by rewrite app_nil_r].
Qed.

Lemma set_plan_requests_witness :
  let w' := snd (SetManagementPlan.take_action
                   Scenario.plan_service Scenario.plans_manager _
                   Scenario.plain_columns
                   Utils.parameters_args_to_patch Utils.args_to_patch
                   Scenario.set_count_and_flavor Scenario.empty_world) in
  http_log w'
    = [get_request "/v2/plans/u1";
       put_request "/v2/plans/u1"
         (PList [Utils.patch_op "add" "parameters/compute-1::count" "2";
                 Utils.patch_op "replace" "roles/r1/Flavor" "baremetal"])] /\
  stderr w' = [].
Proof.
  exact (set_plan_requests Scenario.plan_service Scenario.plans_manager _
           Scenario.plain_columns
           Utils.parameters_args_to_patch Utils.args_to_patch
           Scenario.set_count_and_flavor Scenario.empty_world
           "/v2/plans/u1" Scenario.plan_doc
           Scenario.plan_class (PList [Scenario.compute_role])
           [Utils.patch_op "add" "parameters/compute-1::count" "2"]
           [Utils.patch_op "replace" "roles/r1/Flavor" "baremetal"] []
           eq_refl eq_refl eq_refl eq_refl eq_refl eq_refl eq_refl eq_refl).
Defined.

(** The names of an array of role objects, each carrying its name as a
    string, are read off in order. *)
Lemma role_names_named (roles : list pyval) (names : list string) :
  Forall2 (fun role name =>
             exists r, role = PDict r /\ r !! "name" = Some (PStr name))
          roles names ->
  role_names (PList roles) = Return (PStr <$> names).
Proof.
  unfold role_names, py_iter.
  induction 1 as [|role name roles names (r & -> & Hname) _ IH]; [done|].
  cbn [map_result doc_attr]. by rewrite Hname, IH.
Qed.

(** Joining strings never fails and is [str_join]. *)
Lemma py_join_strings sep (names : list string) :
  py_join sep (PStr <$> names) = Return (str_join sep names).
Proof.
  unfold py_join.
  assert (Hmap : map_result (fun v => match v with
                                      | PStr s => Return s
                                      | _ => Raise TypeError
                                      end) (PStr <$> names) = Return names).
  { induction names as [|n names IH]; [done|]. cbn. by rewrite IH. }
  by rewrite Hmap.
Qed.

(** [str_join] is the concatenation with separators of the standard
    library. *)
Lemma str_join_concat sep (l : list string) :
  str_join sep l = String.concat sep l.
Proof. induction l as [|s [|t l] IH]; [done|done|]. cbn in *. by rewrite IH. Qed.

(** Every name is read before any is joined: a role without a name is what
    fails, also behind a role whose name is not a string. *)
Example names_read_before_join :
  role_names (PList [PDict (<["name" := PInt 1]> ∅); PDict ∅])
    = Raise (AttributeError "name") /\
  role_names (PList [PDict (<["name" := PInt 1]> ∅)]) = Return [PInt 1] /\
  py_join ", " [PInt 1] = Raise TypeError.
Proof. done. Qed.

(** C9. A plan shown without [--long], whose [roles] entry is an array of
    role objects each carrying its name as a string: the one GET is sent,
    and the dictionary handed to the column formatter is the plan document
    with its [roles] entry replaced by the names of these roles, in their
    order, separated by a comma and a space, and with its [parameters]
    entry, when the plan has one, replaced by the text "Parameter output
    suppressed. Use --long to display them."; a plan without a [parameters]
    entry is shown without one. All other entries are those of the plan. *)
Theorem show_plan_short respond (plans : Manager) (columns : Type)
    (dict2columns : gmap string pyval -> columns) uuid w url d cls
    (roles : list pyval) (names : list string) :
  _single_path plans uuid = Return url ->
  respond (http_log w) (get_request url) = Return (PDict d) ->
  truthy (PDict d) = true ->
  resource_class plans = Some cls ->
  d !! "roles" = Some (PList roles) ->
  Forall2 (fun role name =>
             exists r, role = PDict r /\ r !! "name" = Some (PStr name))
          roles names ->
  exists shown,
    ShowManagementPlan.take_action respond plans columns dict2columns
      {| ShowManagementPlan.plan_uuid := uuid;
         ShowManagementPlan.long := false |} w
      = (Return (dict2columns shown), logged w (get_request url)) /\
    shown !! "roles" = Some (PStr (String.concat ", " names)) /\
    (is_Some (d !! "parameters") ->
     shown !! "parameters"
     = Some (PStr "Parameter output suppressed. Use --long to display them.")) /\
    (d !! "parameters" = None -> shown !! "parameters" = None) /\
    (forall k, k <> "roles" -> k <> "parameters" -> shown !! k = d !! k).
Proof.
  intros Hpath Hdoc Htruthy Hcls Hroles Hnames.
  exists (<["roles" := PStr (str_join ", " names)]>
            (if decide (is_Some (d !! "parameters"))
             then <["parameters" := PStr suppression_notice]> d else d)).
  split.
  - unfold ShowManagementPlan.take_action.
    cbn [ShowManagementPlan.plan_uuid ShowManagementPlan.long negb].
    rewrite (bind_return _ _ _ _ _
               (plans_get_found respond plans _ w url _ cls
                  Hpath Hdoc Htruthy Hcls)).
    set (plan := Some _).
    assert (Hdict : to_dict plan = Return d) by done.
    assert (Hattr : getattr plan "roles" = Return (PList roles)).
    { subst plan. cbn. by rewrite Hroles. }
    step Hdict. unfold bind at 1. step Hattr.
    step (role_names_named roles names Hnames).
    by step (py_join_strings ", " names).
  - split; [by rewrite lookup_insert_eq, str_join_concat|].
    split; [|split].
    + intros Hsome. rewrite lookup_insert_ne by done.
      rewrite decide_True by done. by rewrite lookup_insert_eq.
    + intros Hnone. rewrite lookup_insert_ne by done.
      rewrite decide_False; [done|]. rewrite Hnone. by intros [? ?].
    + intros k Hr Hp. rewrite lookup_insert_ne by done.
      case_decide; [|done]. by rewrite lookup_insert_ne.
Qed.

Lemma show_plan_short_witness :
  (exists shown,
     ShowManagementPlan.take_action Cases.two_role_service
       Scenario.plans_manager _ Scenario.plain_columns
       {| ShowManagementPlan.plan_uuid := PStr "u2";
          ShowManagementPlan.long := false |} Scenario.empty_world
       = (Return shown,
          logged Scenario.empty_world (get_request "/v2/plans/u2")) /\
     shown !! "roles" = Some (PStr "Compute, Controller") /\
     shown !! "parameters"
     = Some (PStr "Parameter output suppressed. Use --long to display them.") /\
     shown !! "name" = Some (PStr "overcloud")) /\
  (exists shown,
     ShowManagementPlan.take_action Scenario.plan_service
       Scenario.plans_manager _ Scenario.plain_columns
       Scenario.show_u1 Scenario.empty_world
       = (Return shown,
          logged Scenario.empty_world (get_request "/v2/plans/u1")) /\
     shown !! "roles" = Some (PStr "Compute") /\
     shown !! "parameters"
     = Some (PStr "Parameter output suppressed. Use --long to display them.") /\
     shown !! "name" = Some (PStr "myplan")).
Proof.
  assert (Htwo : Forall2 (fun role name =>
                    exists r, role = PDict r /\ r !! "name" = Some (PStr name))
                  [Scenario.compute_role; Cases.controller_role]
                  ["Compute"; "Controller"])
    by (repeat constructor; eexists; split; reflexivity).
  assert (Hone : Forall2 (fun role name =>
                    exists r, role = PDict r /\ r !! "name" = Some (PStr name))
                  [Scenario.compute_role] ["Compute"])
    by (repeat constructor; eexists; split; reflexivity).
  split.
  - destruct (show_plan_short Cases.two_role_service Scenario.plans_manager _
                Scenario.plain_columns (PStr "u2") Scenario.empty_world
                "/v2/plans/u2" Cases.two_role_plan Scenario.plan_class
                [Scenario.compute_role; Cases.controller_role]
                ["Compute"; "Controller"]
                eq_refl eq_refl eq_refl eq_refl eq_refl Htwo)
      as (shown & Hrun & Hroles & Hparams & _ & Hrest).
    exists shown. split; [exact Hrun|]. split; [exact Hroles|].
    split; [apply Hparams; by eexists|].
    rewrite Hrest by discriminate. reflexivity.
  - destruct (show_plan_short Scenario.plan_service Scenario.plans_manager _
                Scenario.plain_columns (PStr "u1") Scenario.empty_world
                "/v2/plans/u1" Scenario.plan_doc Scenario.plan_class
                [Scenario.compute_role] ["Compute"]
                eq_refl eq_refl eq_refl eq_refl eq_refl Hone)
      as (shown & Hrun & Hroles & Hparams & _ & Hrest).
    exists shown. split; [exact Hrun|]. split; [exact Hroles|].
    split; [apply Hparams; by eexists|].
    rewrite Hrest by discriminate. reflexivity.
Defined.

(** * Further properties *)

(** ** Sufficiency check, continued *)

(** The fields [sufficient_options] requires, given the options. *)
Lemma sufficient_options_cases (o : gmap string pyval) :
  sufficient_options o =
    if truthy (dict_get o "token") then
      match List.filter (fun opt => negb (truthy (dict_get o opt)))
                        ["token"; "endpoint"] with
      | [] => Return tt
      | m => Raise (AuthPluginOptionsMissing (PList (PStr <$> m)))
      end
    else if truthy (dict_get o "tenant_id") || truthy (dict_get o "tenant_name")
    then
      match List.filter (fun opt => negb (truthy (dict_get o opt)))
                        ["username"; "password"; "auth_url"] with
      | [] => Return tt
      | m => Raise (AuthPluginOptionsMissing (PList (PStr <$> m)))
      end
    else Raise (AuthPluginOptionsMissing (PStr "tenant_id or tenant_name")).
Proof.
  unfold sufficient_options.
  destruct (truthy (dict_get o "token")).
  - by destruct (List.filter _ _).
  - cbn [fmap list_fmap existsb]. rewrite orb_false_r.
    destruct (truthy (dict_get o "tenant_id")
              || truthy (dict_get o "tenant_name"));
      cbn [negb]; [|done].
    by destruct (List.filter _ _).
Qed.

(** X1. The check passes exactly when, with a token, the endpoint is set
    too, and, without a token, a tenant (id or name), the user name, the
    password and the authentication URL are all set. *)
Theorem sufficient_options_passes_iff (o : gmap string pyval) :
  sufficient_options o = Return tt <->
  if truthy (dict_get o "token") then
    truthy (dict_get o "endpoint") = true
  else
    (truthy (dict_get o "tenant_id") = true \/
     truthy (dict_get o "tenant_name") = true) /\
    truthy (dict_get o "username") = true /\
    truthy (dict_get o "password") = true /\
    truthy (dict_get o "auth_url") = true.
Proof.
  rewrite sufficient_options_cases.
  destruct (truthy (dict_get o "token")) eqn:Ht.
  - cbn [List.filter]. rewrite Ht. cbn [negb].
    destruct (truthy (dict_get o "endpoint")); cbn; split; done.
  - cbn [List.filter].
    destruct (truthy (dict_get o "tenant_id")),
             (truthy (dict_get o "tenant_name")),
             (truthy (dict_get o "username")),
             (truthy (dict_get o "password")),
             (truthy (dict_get o "auth_url")); cbn;
      (split; [intros H; try discriminate H; repeat split; auto
             |intros ([?|?] & ? & ? & ?); congruence]).
Qed.

(** X2. When the check fails with a list of fields, the list names every
    required field that is unset, and no other: with a token the required
    fields are the token and the endpoint, without one the user name, the
    password and the authentication URL. *)
Theorem sufficient_options_reports_all (o : gmap string pyval) missing :
  sufficient_options o = Raise (AuthPluginOptionsMissing (PList missing)) ->
  missing <> [] /\
  forall f,
    In (PStr f) missing <->
    In f (if truthy (dict_get o "token") then ["token"; "endpoint"]
          else ["username"; "password"; "auth_url"]) /\
    truthy (dict_get o f) = false.
Proof.
  rewrite sufficient_options_cases.
  assert (Hnames : forall (l : list string) (f : string),
             In (PStr f) (PStr <$> l) <-> In f l).
  { intros l f. induction l as [|x l IH]; [done|]. cbn.
    rewrite IH. split; (intros [H|H]; [left|by right]); congruence. }
  assert (Hfilter : forall table m,
    match List.filter (fun opt => negb (truthy (dict_get o opt))) table with
    | [] => Return tt
    | m' => Raise (AuthPluginOptionsMissing (PList (PStr <$> m')))
    end = Raise (AuthPluginOptionsMissing (PList m)) ->
    m <> [] /\
    forall f, In (PStr f) m <-> In f table /\ truthy (dict_get o f) = false).
  { intros table m H.
    destruct (List.filter _ table) as [|x l] eqn:Hl; [done|].
    injection H as <-. split; [done|]. intros f.
    change (PStr x :: list_fmap string pyval PStr l) with (PStr <$> x :: l).
    rewrite Hnames, <- Hl, filter_In, negb_true_iff. done. }
  destruct (truthy (dict_get o "token")); [apply Hfilter|].
  destruct (truthy (dict_get o "tenant_id")
            || truthy (dict_get o "tenant_name"));
    [apply Hfilter|done].
Qed.

Lemma sufficient_options_reports_all_witness :
  [PStr "auth_url"] <> [] /\
  forall f,
    In (PStr f) [PStr "auth_url"] <->
    In f (if truthy (dict_get Scenario.no_auth_url_opts "token")
          then ["token"; "endpoint"]
          else ["username"; "password"; "auth_url"]) /\
    truthy (dict_get Scenario.no_auth_url_opts f) = false.
Proof.
  exact (sufficient_options_reports_all Scenario.no_auth_url_opts
           [PStr "auth_url"] eq_refl).
Defined.

(** ** Credential resolution, continued *)

(** X3. Resolution never changes the options, never drops a keystone client
    that is cached on the plugin, and only ever appends to the trace of
    identity-service interactions. *)
Theorem resolve_preserves ks_Client (self : plugin) et st :
  let self' := snd (resolve ks_Client et st self) in
  opts self' = opts self /\
  (is_Some (_ksclient self) -> is_Some (_ksclient self')) /\
  exists new, ks_trace self' = (ks_trace self ++ new)%list.
Proof.
  cbv beta zeta delta [resolve bind _do_authenticate token_and_endpoint lift
                       log_ks set_ksclient modify ret].
  destruct (is_None (dict_get (opts self) "token")).
  - destruct (ks_Client _) as [ks|e]; cbn.
    + destruct (truthy (dict_get (opts self) "token")
                && truthy (dict_get (opts self) "endpoint")); cbn.
      { repeat split; [by eexists|]. by eexists [_]. }
      destruct (truthy (dict_get (opts self) "endpoint")); cbn.
      { repeat split; [by eexists|]. rewrite <- app_assoc. by eexists. }
      destruct (url_for ks _ et); cbn;
        (repeat split; [by eexists|]); rewrite <- !app_assoc; by eexists.
    + repeat split; [done|]. by eexists.
  - cbn.
    destruct (truthy (dict_get (opts self) "token")
              && truthy (dict_get (opts self) "endpoint")); cbn.
    { repeat split; [done|]. exists []. by rewrite app_nil_r. }
    destruct (_ksclient self) as [ks|]; cbn.
    + destruct (truthy (dict_get (opts self) "endpoint")); cbn.
      { repeat split; [by eexists|]. by eexists. }
      destruct (url_for ks _ et); cbn;
        (repeat split; [by eexists|]); rewrite <- !app_assoc; by eexists.
    + repeat split; [done|]. exists []. by rewrite app_nil_r.
Qed.

(** X4. A token option that is present but falsy (the empty string rather
    than [None]) disables authentication altogether: no keystone client is
    created, and, none being cached, resolution yields [(None, None)] and
    leaves the plugin untouched, whatever the other options hold. *)
Theorem blank_token_resolves_to_nothing ks_Client (self : plugin) et st :
  is_None (dict_get (opts self) "token") = false ->
  truthy (dict_get (opts self) "token") = false ->
  _ksclient self = None ->
  resolve ks_Client et st self = (Return (PNone, PNone), self).
Proof.
  intros Hnone Hfalsy Hk.
  unfold resolve, bind, _do_authenticate, token_and_endpoint.
  rewrite Hnone. cbn. by rewrite Hfalsy, Hk.
Qed.

(** X5. In password mode a failure of the identity service is what
    resolution raises: the attempt is on the trace, no client is cached by
    it, and neither the token nor the catalog is consulted. *)
Theorem identity_failure_propagates ks_Client (self : plugin) et st e :
  dict_get (opts self) "token" = PNone ->
  ks_Client (ks_kwargs_of (opts self)) = Raise e ->
  resolve ks_Client et st self
  = (Raise e,
     {| opts := opts self; _ksclient := _ksclient self;
        ks_trace := ks_trace self ++ [KsConnect (ks_kwargs_of (opts self))] |}).
Proof.
  intros Ht Hks. unfold resolve, bind, _do_authenticate, lift.
  rewrite Ht. cbn. by rewrite Hks.
Qed.

(** X6. In password mode with the identity service answering, one resolution
    connects to the service once, caches the client it got, reads the token
    and consults the catalog only when no explicit endpoint is set; the
    connection is made anew by every call of [_do_authenticate], a client
    cached earlier being replaced. *)
Theorem password_mode_trace ks_Client (self : plugin) ks et st :
  dict_get (opts self) "token" = PNone ->
  ks_Client (ks_kwargs_of (opts self)) = Return ks ->
  let connect := KsConnect (ks_kwargs_of (opts self)) in
  let lookup :=
    if truthy (dict_get (opts self) "endpoint") then []
    else [KsUrlFor (py_or st (PStr "management")) et] in
  snd (resolve ks_Client et st self)
  = {| opts := opts self; _ksclient := Some ks;
       ks_trace := ks_trace self ++ [connect; KsAuthToken] ++ lookup |} /\
  (do_ _do_authenticate ks_Client; _do_authenticate ks_Client) self
  = (Return tt,
     {| opts := opts self; _ksclient := Some ks;
        ks_trace := ks_trace self ++ [connect; connect] |}).
Proof.
  intros Ht Hks connect lookup. subst connect lookup. split.
  - cbv beta zeta delta [resolve bind _do_authenticate token_and_endpoint lift
                         log_ks set_ksclient modify ret].
    rewrite Ht. cbn. rewrite Hks. cbn. rewrite Ht. cbn.
    destruct (truthy (dict_get (opts self) "endpoint")); cbn.
    + by rewrite <- app_assoc.
    + destruct (url_for ks _ et); cbn; by rewrite <- !app_assoc.
  - cbv beta zeta delta [bind _do_authenticate lift log_ks set_ksclient
                         modify ret].
    rewrite Ht. cbn. rewrite Hks. cbn. rewrite Ht. cbn. rewrite Hks. cbn.
    by rewrite <- app_assoc.
Qed.

(** X7. Once a keystone client is cached and no explicit endpoint is set,
    [token_and_endpoint] answers from the client, whatever the token option
    holds: the token is the client's token and the endpoint the catalog
    entry. *)
Theorem cached_client_answers (self : plugin) ks et st :
  _ksclient self = Some ks ->
  truthy (dict_get (opts self) "endpoint") = false ->
  fst (token_and_endpoint et st self)
  = match url_for ks (py_or st (PStr "management")) et with
    | Return endpoint => Return (auth_token ks, endpoint)
    | Raise e => Raise e
    end.
Proof.
  intros Hk He.
  cbv beta zeta delta [token_and_endpoint bind lift log_ks modify ret].
  rewrite He, andb_false_r, Hk. cbn.
  by destruct (url_for ks _ et).
Qed.

Lemma blank_token_resolves_to_nothing_witness :
  sufficient_options Cases.blank_token_opts = Return tt /\
  resolve Scenario.demo_identity (PStr "publicURL") PNone
          (Scenario.fresh_plugin Cases.blank_token_opts)
  = (Return (PNone, PNone), Scenario.fresh_plugin Cases.blank_token_opts).
Proof.
  split; [reflexivity|].
  exact (blank_token_resolves_to_nothing Scenario.demo_identity
           (Scenario.fresh_plugin Cases.blank_token_opts)
           (PStr "publicURL") PNone eq_refl eq_refl eq_refl).
Defined.

Lemma identity_failure_propagates_witness :
  fst (resolve Cases.failing_identity (PStr "publicURL") PNone
         (Scenario.fresh_plugin Scenario.password_opts))
  = Raise (ServiceError "Unauthorized").
Proof.
  exact (f_equal fst
           (identity_failure_propagates Cases.failing_identity
              (Scenario.fresh_plugin Scenario.password_opts)
              (PStr "publicURL") PNone (ServiceError "Unauthorized")
              eq_refl eq_refl)).
Defined.

Lemma password_mode_trace_witness :
  let self := Scenario.fresh_plugin Scenario.password_opts in
  let connect := KsConnect (ks_kwargs_of Scenario.password_opts) in
  ks_trace (snd (resolve Scenario.demo_identity (PStr "publicURL") PNone self))
  = [connect; KsAuthToken; KsUrlFor (PStr "management") (PStr "publicURL")] /\
  ks_trace (snd ((do_ _do_authenticate Scenario.demo_identity;
                  _do_authenticate Scenario.demo_identity) self))
  = [connect; connect].
Proof.
  destruct (password_mode_trace Scenario.demo_identity
              (Scenario.fresh_plugin Scenario.password_opts)
              Scenario.demo_ksclient (PStr "publicURL") PNone
              eq_refl eq_refl) as [Hresolve Htwice].
  split.
  - exact (f_equal ks_trace Hresolve).
  - exact (f_equal (fun r => ks_trace (snd r)) Htwice).
Defined.

Lemma cached_client_answers_witness :
  fst (token_and_endpoint (PStr "publicURL") PNone Cases.cached_plugin)
  = Return (PStr "0c9d7e", PStr "http://tuskar.example:8585").
Proof.
  exact (cached_client_answers Cases.cached_plugin Scenario.demo_ksclient
           (PStr "publicURL") PNone eq_refl eq_refl).
Defined.

(** X27. The check and the resolution fit together in token mode: options
    that pass [sufficient_options] with a token set resolve to that token
    and to the endpoint of the options, which is set, without any use of
    the identity service. *)
Theorem checked_token_resolves ks_Client (self : plugin) et st :
  sufficient_options (opts self) = Return tt ->
  truthy (dict_get (opts self) "token") = true ->
  resolve ks_Client et st self
  = (Return (dict_get (opts self) "token", dict_get (opts self) "endpoint"),
     self) /\
  truthy (dict_get (opts self) "endpoint") = true.
Proof.
  intros Hcheck Ht. rewrite sufficient_options_cases, Ht in Hcheck.
  cbn [List.filter] in Hcheck. rewrite Ht in Hcheck. cbn [negb] in Hcheck.
  destruct (truthy (dict_get (opts self) "endpoint")) eqn:He; [|done].
  split; [|done].
  unfold resolve, bind, _do_authenticate, token_and_endpoint.
  rewrite (truthy_not_None _ Ht). cbn. by rewrite Ht, He.
Qed.

Lemma checked_token_resolves_witness :
  resolve Cases.failing_identity (PStr "publicURL") PNone
          (Scenario.fresh_plugin Scenario.token_opts)
  = (Return (PStr "b5a1f0", PStr "http://tuskar.example:8585"),
     Scenario.fresh_plugin Scenario.token_opts) /\
  truthy (PStr "http://tuskar.example:8585") = true.
Proof.
  exact (checked_token_resolves Cases.failing_identity
           (Scenario.fresh_plugin Scenario.token_opts) (PStr "publicURL")
           PNone eq_refl eq_refl).
Defined.

(** ** Generic manager, continued *)

Lemma run_send respond rq w :
  send respond rq w = (respond (http_log w) rq, logged w rq).
Proof. reflexivity. Qed.

(** What [_list] does once the GET went out, by what the service did. *)
Lemma list_unfold respond (self : Manager) url rk oc es w :
  _list respond self url rk oc es w
  = match respond (http_log w) (get_request url) with
    | Raise e => (Raise e, logged w (get_request url))
    | Return body =>
        (match response_data rk body with
         | Raise e => Raise e
         | Return None => Return []
         | Return (Some data) =>
             match (if es then Return [data] else py_iter data) with
             | Raise e => Raise e
             | Return elements =>
                 map_result
                   (fun res => new_resource (class_for self oc) self res true)
                   (List.filter truthy elements)
             end
         end, logged w (get_request url))
    end.
Proof.
  cbv beta zeta delta [_list bind json_request send lift ret].
  fold (get_request url).
  destruct (respond (http_log w) (get_request url)) as [body|e]; [|done].
  destruct (response_data rk body) as [[data|]|e]; [|done|done].
  by destruct (if es then Return [data] else py_iter data).
Qed.

(** What [_get] makes of the outcome of its [_list] call. *)
Lemma get_unfold respond (self : Manager) url kwargs w :
  _get respond self url kwargs w
  = let r := _list respond self url (kw_response_key kwargs)
                   (kw_obj_class kwargs)
                   (default true (kw_expect_single kwargs)) w in
    (match fst r with
     | Return [] => Return None
     | Return (x :: _) => Return (Some x)
     | Raise e => if is_IndexError e then Return None else Raise e
     end, snd r).
Proof.
  cbv beta zeta delta [_get try_except bind ret raise].
  destruct (_list _ _ _ _ _ _ _) as [[[|x l]|e] w']; cbn; [done|done|].
  by destruct (is_IndexError e).
Qed.

(** X8. Each of the five request primitives of a manager sends exactly one
    request, of its own method, to the URL it is given, and prints nothing,
    whether the service answers, answers with an empty body, or fails. *)
Theorem one_request_each respond (self : Manager) url body rk oc es kwargs w :
  snd (_list respond self url rk oc es w) = logged w (get_request url) /\
  snd (_get respond self url kwargs w) = logged w (get_request url) /\
  snd (_create respond self url body w)
    = logged w (Cases.post_request url body) /\
  snd (_update respond self url body w) = logged w (put_request url body) /\
  snd (_delete respond url w) = logged w (Cases.delete_request url).
Proof.
  assert (Hput : forall method,
    snd ((do answer <- json_request respond method url (Some body);
          if truthy answer then
            do r <- lift (new_resource (resource_class self) self answer false);
            ret (Some r)
          else ret None) w)
    = logged w {| req_method := method; req_url := url;
                  req_body := Some body |}).
  { intros method.
    cbv beta zeta delta [bind json_request send lift ret].
    destruct (respond _ _) as [answer|e]; [|done].
    destruct (truthy answer); [|done].
    by destruct (new_resource _ _ _ _). }
  split; [|split; [|split; [|split]]].
  - rewrite list_unfold. by destruct (respond _ _).
  - rewrite get_unfold. cbn [snd]. rewrite list_unfold.
    by destruct (respond _ _).
  - apply Hput.
  - apply Hput.
  - cbv beta zeta delta [_delete raw_request bind send ret].
    by destruct (respond _ _).
Qed.

(** X9. [_get] never raises [IndexError]: an empty result and an
    [IndexError] coming out of the request itself both end in [None]. *)
Theorem get_never_raises_IndexError respond (self : Manager) url kwargs w :
  fst (_get respond self url kwargs w) <> Raise IndexError.
Proof.
  rewrite get_unfold. cbn [fst].
  destruct (fst (_list _ _ _ _ _ _ _)) as [[|x l]|e]; [done|done|].
  by destruct e.
Qed.

(** X10. When the service fails the GET with an exception, [_list] raises
    that exception; so does [_get], unless the exception is an
    [IndexError], which it turns into [None]. *)
Theorem get_request_failure respond (self : Manager) url rk oc es kwargs w e :
  respond (http_log w) (get_request url) = Raise e ->
  fst (_list respond self url rk oc es w) = Raise e /\
  fst (_get respond self url kwargs w)
    = if is_IndexError e then Return None else Raise e.
Proof.
  intros Hfail. split.
  - by rewrite list_unfold, Hfail.
  - rewrite get_unfold. cbn [fst]. by rewrite list_unfold, Hfail.
Qed.


(** X12. [_get] told not to wrap the data ([expect_single=False]) and
    answered with an array returns the resource of the first truthy element
    of the array, and [None] when the array has none. *)
Theorem get_first_of_array respond (self : Manager) url kwargs w body l cls :
  kw_expect_single kwargs = Some false ->
  respond (http_log w) (get_request url) = Return body ->
  response_data (kw_response_key kwargs) body = Return (Some (PList l)) ->
  class_for self (kw_obj_class kwargs) = Some cls ->
  fst (_get respond self url kwargs w)
  = Return (match List.filter truthy l with
            | [] => None
            | res :: _ => Some {| manager := self; res_class := cls;
                                  _info := res; _loaded := true |}
            end).
Proof.
  intros Hsingle Hbody Hdata Hcls.
  rewrite get_unfold, list_unfold, Hsingle, Hbody, Hdata.
  cbv beta iota zeta delta [default from_option id fst py_iter].
  rewrite Hcls, map_result_new_resource.
  by destruct (List.filter truthy l).
Qed.

(** X13. [_create] and [_update] return [None] when the service answers
    with an empty (falsy) body, also for a manager without a resource
    class; a truthy answer comes back as a resource wrapping it that is not
    marked as loaded; an exception of the service is raised unchanged. *)
Theorem create_update_result respond (self : Manager) url body w :
  let outcome answer :=
    match answer with
    | Raise e => Raise e
    | Return answer =>
        if truthy answer then
          match resource_class self with
          | Some cls => Return (Some {| manager := self; res_class := cls;
                                        _info := answer; _loaded := false |})
          | None => Raise TypeError
          end
        else Return None
    end in
  fst (_create respond self url body w)
    = outcome (respond (http_log w) (Cases.post_request url body)) /\
  fst (_update respond self url body w)
    = outcome (respond (http_log w) (put_request url body)).
Proof.
  intros outcome. subst outcome.
  cbv beta zeta delta [_create _update bind json_request send lift ret
                       new_resource].
  fold (Cases.post_request url body). fold (put_request url body).
  split; (destruct (respond _ _) as [answer|e]; [|done]);
    (destruct (truthy answer); [|done]); by destruct (resource_class self).
Qed.

(** X14. Ways [_list] fails with [TypeError] on an answered GET: the data is
    [None], a boolean or a number and is to be iterated; a response key is
    given and the body is not an object; truthy elements are to be wrapped
    and neither [obj_class] nor [resource_class] is set. *)
Theorem list_type_errors respond (self : Manager) url w body :
  respond (http_log w) (get_request url) = Return body ->
  (forall oc,
      body = PNone \/ (exists b, body = PBool b) \/ (exists z, body = PInt z) ->
      fst (_list respond self url None oc false w) = Raise TypeError) /\
  (forall key oc es,
      key <> "" -> (forall d, body <> PDict d) ->
      fst (_list respond self url (Some key) oc es w) = Raise TypeError) /\
  (forall rk oc l,
      response_data rk body = Return (Some (PList l)) ->
      List.filter truthy l <> [] ->
      class_for self oc = None ->
      fst (_list respond self url rk oc false w) = Raise TypeError).
Proof.
  intros Hbody. repeat split.
  - intros oc Hkind. rewrite list_unfold, Hbody. cbn.
    by destruct Hkind as [-> | [[b ->] | [z ->]]].
  - intros key oc es Hkey Hnot. rewrite list_unfold, Hbody.
    cbv beta zeta iota delta [response_data truthy_key fst].
    apply String.eqb_neq in Hkey. rewrite Hkey.
    destruct body; try done. by destruct (Hnot d).
  - intros rk oc l Hdata Hsome Hcls. rewrite list_unfold, Hbody, Hdata.
    cbn [py_iter fst]. cbv beta iota. rewrite Hcls.
    by destruct (List.filter truthy l).
Qed.

Lemma get_request_failure_witness :
  fst (_list Cases.down_service Scenario.plans_manager "/v2/plans" None None
             false Scenario.empty_world)
    = Raise (ServiceError "ConnectionRefused") /\
  fst (_get Cases.down_service Scenario.plans_manager "/v2/plans" no_kwargs
            Scenario.empty_world)
    = Raise (ServiceError "ConnectionRefused").
Proof.
  exact (get_request_failure Cases.down_service Scenario.plans_manager
           "/v2/plans" None None false no_kwargs Scenario.empty_world
           (ServiceError "ConnectionRefused") eq_refl).
Defined.


Lemma get_first_of_array_witness :
  fst (_get Scenario.listing_service Scenario.plans_manager "/v2/plans"
            Cases.first_plan_kwargs Scenario.empty_world)
  = Return (Some {| manager := Scenario.plans_manager;
                    res_class := Scenario.plan_class;
                    _info := PDict (Scenario.plan_doc_of "first");
                    _loaded := true |}).
Proof.
  exact (get_first_of_array Scenario.listing_service Scenario.plans_manager
           "/v2/plans" Cases.first_plan_kwargs Scenario.empty_world
           Scenario.listing_body
           [PDict (Scenario.plan_doc_of "first"); PNone;
            PDict (Scenario.plan_doc_of "second")]
           Scenario.plan_class eq_refl eq_refl eq_refl eq_refl).
Defined.

Lemma list_type_errors_witness :
  fst (_list Cases.null_service Scenario.plans_manager "/v2/plans" None None
             false Scenario.empty_world) = Raise TypeError /\
  fst (_list Cases.null_service Scenario.plans_manager "/v2/plans"
             (Some "plans") None false Scenario.empty_world) = Raise TypeError.
Proof.
  destruct (list_type_errors Cases.null_service Scenario.plans_manager
              "/v2/plans" Scenario.empty_world PNone eq_refl)
    as (Hiter & Hkey & _).
  split.
  - exact (Hiter None (or_introl eq_refl)).
  - apply Hkey; discriminate.
Defined.

(** ** Plan commands, continued *)

(** The PUT behind [_update], by what the service did. *)
Lemma update_run respond (self : Manager) url body w :
  _update respond self url body w
  = (match respond (http_log w) (put_request url body) with
     | Raise e => Raise e
     | Return answer =>
         if truthy answer then
           match new_resource (resource_class self) self answer false with
           | Return r => Return (Some r)
           | Raise e => Raise e
           end
         else Return None
     end, logged w (put_request url body)).
Proof.
  cbv beta zeta delta [_update bind json_request send lift ret].
  fold (put_request url body).
  destruct (respond _ _) as [answer|e]; [|done].
  destruct (truthy answer); [|done]. by destruct (new_resource _ _ _ _).
Qed.

(** A GET on the single-resource path answered with a falsy body gives no
    plan. *)
Lemma plans_get_missing respond (plans : Manager) uuid w url body :
  _single_path plans uuid = Return url ->
  respond (http_log w) (get_request url) = Return body ->
  truthy body = false ->
  plans_get respond plans uuid w = (Return None, logged w (get_request url)).
Proof.
  intros Hpath Hbody Hfalsy. unfold plans_get.
  rewrite (bind_lift _ _ w url Hpath).
  rewrite get_unfold, list_unfold, Hbody. cbn. by rewrite Hfalsy.
Qed.

(** X15. With [--long] a plan whose [roles] entry is an array of role
    objects is displayed as the service returned it: after the one GET the
    dictionary handed to the column formatter is the plan document itself,
    with its raw parameters and its role objects. *)
Theorem show_plan_long respond (plans : Manager) (columns : Type)
    (dict2columns : gmap string pyval -> columns) uuid w url d cls
    (roles : list pyval) :
  _single_path plans uuid = Return url ->
  respond (http_log w) (get_request url) = Return (PDict d) ->
  truthy (PDict d) = true ->
  resource_class plans = Some cls ->
  d !! "roles" = Some (PList roles) ->
  Forall (fun role => exists r, role = PDict r) roles ->
  ShowManagementPlan.take_action respond plans columns dict2columns
    {| ShowManagementPlan.plan_uuid := uuid;
       ShowManagementPlan.long := true |} w
  = (Return (dict2columns d), logged w (get_request url)).
Proof.
  intros Hpath Hdoc Htruthy Hcls _ _.
  unfold ShowManagementPlan.take_action.
  cbn [ShowManagementPlan.plan_uuid ShowManagementPlan.long negb].
  rewrite (bind_return _ _ _ _ _
             (plans_get_found respond plans _ w url _ cls
                Hpath Hdoc Htruthy Hcls)).
  done.
Qed.

(** X16. When the service answers the GET for the plan with an empty body,
    both commands fail with [AttributeError] right after that GET, [plan
    set] on [plan.roles] and [plan show] on [plan.to_dict]: no update is
    sent and nothing is printed. *)
Theorem plan_not_found respond (plans : Manager) (columns : Type)
    (dict2columns : gmap string pyval -> columns)
    parameters_args_to_patch args_to_patch uuid params flavors scales long
    w url body :
  _single_path plans uuid = Return url ->
  respond (http_log w) (get_request url) = Return body ->
  truthy body = false ->
  SetManagementPlan.take_action respond plans columns dict2columns
    parameters_args_to_patch args_to_patch
    {| SetManagementPlan.plan_uuid := uuid;
       SetManagementPlan.parameters := params;
       SetManagementPlan.flavors := flavors;
       SetManagementPlan.scales := scales |} w
  = (Raise (AttributeError "roles"), logged w (get_request url)) /\
  ShowManagementPlan.take_action respond plans columns dict2columns
    {| ShowManagementPlan.plan_uuid := uuid;
       ShowManagementPlan.long := long |} w
  = (Raise (AttributeError "to_dict"), logged w (get_request url)).
Proof.
  intros Hpath Hbody Hfalsy.
  pose proof (plans_get_missing respond plans uuid w url body
                Hpath Hbody Hfalsy) as Hget.
  split.
  - unfold SetManagementPlan.take_action. cbn [SetManagementPlan.plan_uuid].
    by rewrite (bind_return _ _ _ _ _ Hget).
  - unfold ShowManagementPlan.take_action. cbn [ShowManagementPlan.plan_uuid].
    by rewrite (bind_return _ _ _ _ _ Hget).
Qed.

(** X17. [plan set] when one of the three calls that build the patch
    raises: the command raises the exception of the first failing call
    (parameters, then flavors, then scale counts) right after the GET;
    nothing is printed and no PUT goes out. *)
Theorem set_plan_patch_failure respond (plans : Manager) (columns : Type)
    (dict2columns : gmap string pyval -> columns)
    parameters_args_to_patch args_to_patch
    (parsed_args : SetManagementPlan.parsed_args) w url d cls roles e :
  _single_path plans (SetManagementPlan.plan_uuid parsed_args)
    = Return url ->
  respond (http_log w) (get_request url) = Return (PDict d) ->
  truthy (PDict d) = true ->
  resource_class plans = Some cls ->
  d !! "roles" = Some roles ->
  match parameters_args_to_patch
          (SetManagementPlan.parameters parsed_args) with
  | Raise e => Raise e
  | Return p1 =>
      match args_to_patch (SetManagementPlan.flavors parsed_args)
              roles "Flavor" with
      | Raise e => Raise e
      | Return p2 =>
          match args_to_patch (SetManagementPlan.scales parsed_args)
                  roles "count" with
          | Raise e => Raise e
          | Return p3 => Return (p1 ++ p2 ++ p3)%list
          end
      end
  end = Raise e ->
  SetManagementPlan.take_action respond plans columns dict2columns
    parameters_args_to_patch args_to_patch parsed_args w
  = (Raise e, logged w (get_request url)).
Proof.
  intros Hpath Hdoc Htruthy Hcls Hroles Hfail.
  unfold SetManagementPlan.take_action.
  rewrite (bind_return _ _ _ _ _
             (plans_get_found respond plans _ w url _ cls
                Hpath Hdoc Htruthy Hcls)).
  set (plan := Some _).
  assert (Hattr : getattr plan "roles" = Return roles).
  { subst plan. cbn. by rewrite Hroles. }
  step Hattr.
  cbv beta zeta delta [bind lift].
  destruct (parameters_args_to_patch _) as [p1|e1]; [|congruence].
  destruct (args_to_patch _ roles "Flavor") as [p2|e2]; [|congruence].
  destruct (args_to_patch _ roles "count") as [p3|e3]; [|congruence].
  discriminate.
Qed.

Lemma nonempty_length {A} (l : list A) :
  l <> [] -> Nat.ltb 0 (length l) = true.
Proof. by destruct l. Qed.

(** The state of [plan set] once the patch is built. *)
Lemma set_plan_after_patch respond (plans : Manager) (columns : Type)
    (dict2columns : gmap string pyval -> columns)
    parameters_args_to_patch args_to_patch
    (parsed_args : SetManagementPlan.parsed_args) w url d cls roles p1 p2 p3 :
  _single_path plans (SetManagementPlan.plan_uuid parsed_args)
    = Return url ->
  respond (http_log w) (get_request url) = Return (PDict d) ->
  truthy (PDict d) = true ->
  resource_class plans = Some cls ->
  d !! "roles" = Some roles ->
  parameters_args_to_patch (SetManagementPlan.parameters parsed_args)
    = Return p1 ->
  args_to_patch (SetManagementPlan.flavors parsed_args) roles "Flavor"
    = Return p2 ->
  args_to_patch (SetManagementPlan.scales parsed_args) roles "count"
    = Return p3 ->
  let patch := (p1 ++ p2 ++ p3)%list in
  let fetched := Some {| manager := plans; res_class := cls;
                         _info := PDict d; _loaded := true |} in
  SetManagementPlan.take_action respond plans columns dict2columns
    parameters_args_to_patch args_to_patch parsed_args w
  = (do plan <- (if Nat.ltb 0 (length patch)
                 then _update respond plans url (PList patch)
                 else do_ print_stderr no_update_warning; ret fetched);
     do plan_dict <- lift (to_dict plan);
     ret (dict2columns plan_dict)) (logged w (get_request url)).
Proof.
  intros Hpath Hdoc Htruthy Hcls Hroles Hp1 Hp2 Hp3 patch fetched.
  unfold SetManagementPlan.take_action.
  rewrite (bind_return _ _ _ _ _
             (plans_get_found respond plans _ w url _ cls
                Hpath Hdoc Htruthy Hcls)).
  fold fetched.
  assert (Hattr : getattr fetched "roles" = Return roles).
  { subst fetched. cbn. by rewrite Hroles. }
  step Hattr. step Hp1. step Hp2. step Hp3. fold patch.
  destruct (Nat.ltb 0 (length patch)); [|done].
  assert (Hput : forall w', plans_patch respond plans
                              (SetManagementPlan.plan_uuid parsed_args)
                              patch w'
                            = _update respond plans url (PList patch) w').
  { intros w'. unfold plans_patch. by rewrite (bind_lift _ _ _ url Hpath). }
  unfold bind. by rewrite Hput.
Qed.

(** X18. What [plan set] displays: with no patch entry built, the plan as
    fetched; with a patch and the PUT answered with the updated plan, that
    updated plan, not the fetched one. *)
Theorem set_plan_shows_result respond (plans : Manager) (columns : Type)
    (dict2columns : gmap string pyval -> columns)
    parameters_args_to_patch args_to_patch
    (parsed_args : SetManagementPlan.parsed_args) w url d cls roles p1 p2 p3 :
  _single_path plans (SetManagementPlan.plan_uuid parsed_args)
    = Return url ->
  respond (http_log w) (get_request url) = Return (PDict d) ->
  truthy (PDict d) = true ->
  resource_class plans = Some cls ->
  d !! "roles" = Some roles ->
  parameters_args_to_patch (SetManagementPlan.parameters parsed_args)
    = Return p1 ->
  args_to_patch (SetManagementPlan.flavors parsed_args) roles "Flavor"
    = Return p2 ->
  args_to_patch (SetManagementPlan.scales parsed_args) roles "count"
    = Return p3 ->
  let patch := (p1 ++ p2 ++ p3)%list in
  let shown := fst (SetManagementPlan.take_action respond plans columns
                      dict2columns parameters_args_to_patch args_to_patch
                      parsed_args w) in
  (patch = [] -> shown = Return (dict2columns d)) /\
  (forall d',
      patch <> [] ->
      respond (http_log w ++ [get_request url])%list
              (put_request url (PList patch)) = Return (PDict d') ->
      truthy (PDict d') = true ->
      shown = Return (dict2columns d')).
Proof.
  intros Hpath Hdoc Htruthy Hcls Hroles Hp1 Hp2 Hp3 patch shown. subst shown.
  rewrite (set_plan_after_patch respond plans columns dict2columns
             parameters_args_to_patch args_to_patch parsed_args w url d cls
             roles p1 p2 p3 Hpath Hdoc Htruthy Hcls Hroles Hp1 Hp2 Hp3).
  fold patch. split.
  - by intros ->.
  - intros d' Hne Hput Htruthy'. rewrite (nonempty_length _ Hne).
    unfold bind at 1. rewrite update_run. cbn [logged http_log].
    by rewrite Hput, Htruthy', Hcls.
Qed.

(** X19. A patch was built and sent, and the update itself goes wrong: when
    the service answers the PUT with an empty body, [plan set] fails with
    [AttributeError] on [plan.to_dict] although the update went through;
    when the service fails the PUT, its exception is raised. Both requests
    are out in either case. *)
Theorem set_plan_update_failures respond (plans : Manager) (columns : Type)
    (dict2columns : gmap string pyval -> columns)
    parameters_args_to_patch args_to_patch
    (parsed_args : SetManagementPlan.parsed_args) w url d cls roles p1 p2 p3 :
  _single_path plans (SetManagementPlan.plan_uuid parsed_args)
    = Return url ->
  respond (http_log w) (get_request url) = Return (PDict d) ->
  truthy (PDict d) = true ->
  resource_class plans = Some cls ->
  d !! "roles" = Some roles ->
  parameters_args_to_patch (SetManagementPlan.parameters parsed_args)
    = Return p1 ->
  args_to_patch (SetManagementPlan.flavors parsed_args) roles "Flavor"
    = Return p2 ->
  args_to_patch (SetManagementPlan.scales parsed_args) roles "count"
    = Return p3 ->
  let patch := (p1 ++ p2 ++ p3)%list in
  patch <> [] ->
  let put := put_request url (PList patch) in
  let run := SetManagementPlan.take_action respond plans columns
               dict2columns parameters_args_to_patch args_to_patch
               parsed_args w in
  (forall answer,
      respond (http_log w ++ [get_request url])%list put = Return answer ->
      truthy answer = false ->
      run = (Raise (AttributeError "to_dict"),
             logged (logged w (get_request url)) put)) /\
  (forall e,
      respond (http_log w ++ [get_request url])%list put = Raise e ->
      run = (Raise e, logged (logged w (get_request url)) put)).
Proof.
  intros Hpath Hdoc Htruthy Hcls Hroles Hp1 Hp2 Hp3 patch Hne put run.
  subst run put.
  rewrite (set_plan_after_patch respond plans columns dict2columns
             parameters_args_to_patch args_to_patch parsed_args w url d cls
             roles p1 p2 p3 Hpath Hdoc Htruthy Hcls Hroles Hp1 Hp2 Hp3).
  fold patch. rewrite (nonempty_length _ Hne).
  split.
  - intros answer Hput Hfalsy.
    unfold bind at 1. rewrite update_run. cbn [logged http_log].
    by rewrite Hput, Hfalsy.
  - intros e Hput.
    unfold bind at 1. rewrite update_run. cbn [logged http_log].
    by rewrite Hput.
Qed.

Lemma show_plan_long_witness :
  ShowManagementPlan.take_action Scenario.plan_service Scenario.plans_manager
    _ Scenario.plain_columns Cases.show_u1_long Scenario.empty_world
  = (Return Scenario.plan_doc,
     logged Scenario.empty_world (get_request "/v2/plans/u1")).
Proof.
  assert (Hroles : Forall (fun role => exists r, role = PDict r)
                     [Scenario.compute_role])
    by (repeat constructor; by eexists).
  exact (show_plan_long Scenario.plan_service Scenario.plans_manager _
           Scenario.plain_columns (PStr "u1") Scenario.empty_world
           "/v2/plans/u1" Scenario.plan_doc Scenario.plan_class
           [Scenario.compute_role]
           eq_refl eq_refl eq_refl eq_refl eq_refl Hroles).
Defined.

Lemma plan_not_found_witness :
  fst (SetManagementPlan.take_action Scenario.quiet_service
         Scenario.plans_manager _ Scenario.plain_columns
         Utils.parameters_args_to_patch Utils.args_to_patch
         Cases.set_u9 Scenario.empty_world)
    = Raise (AttributeError "roles") /\
  fst (ShowManagementPlan.take_action Scenario.quiet_service
         Scenario.plans_manager _ Scenario.plain_columns
         Cases.show_u9 Scenario.empty_world)
    = Raise (AttributeError "to_dict").
Proof.
  destruct (plan_not_found Scenario.quiet_service Scenario.plans_manager _
              Scenario.plain_columns
              Utils.parameters_args_to_patch Utils.args_to_patch
              (PStr "u9") (Some ["compute-1::count=2"]) None None false
              Scenario.empty_world "/v2/plans/u9" (PDict ∅)
              eq_refl eq_refl eq_refl) as [Hset Hshow].
  split.
  - exact (f_equal fst Hset).
  - exact (f_equal fst Hshow).
Defined.

Lemma set_plan_patch_failure_witness :
  SetManagementPlan.take_action Scenario.plan_service Scenario.plans_manager
    _ Scenario.plain_columns
    Utils.parameters_args_to_patch Utils.args_to_patch
    Cases.set_unknown_role Scenario.empty_world
  = (Raise (RoleNotFound "Storage"),
     logged Scenario.empty_world (get_request "/v2/plans/u1")).
Proof.
  exact (set_plan_patch_failure Scenario.plan_service Scenario.plans_manager
           _ Scenario.plain_columns
           Utils.parameters_args_to_patch Utils.args_to_patch
           Cases.set_unknown_role Scenario.empty_world "/v2/plans/u1"
           Scenario.plan_doc Scenario.plan_class
           (PList [Scenario.compute_role]) (RoleNotFound "Storage")
           eq_refl eq_refl eq_refl eq_refl eq_refl eq_refl).
Defined.

Lemma set_plan_shows_result_witness :
  fst (SetManagementPlan.take_action Cases.updating_service
         Scenario.plans_manager _ Scenario.plain_columns
         Utils.parameters_args_to_patch Utils.args_to_patch
         Scenario.set_count_and_flavor Scenario.empty_world)
  = Return (Scenario.plan_doc_of "updated").
Proof.
  destruct (set_plan_shows_result Cases.updating_service
              Scenario.plans_manager _ Scenario.plain_columns
              Utils.parameters_args_to_patch Utils.args_to_patch
              Scenario.set_count_and_flavor Scenario.empty_world
              "/v2/plans/u1" Scenario.plan_doc Scenario.plan_class
              (PList [Scenario.compute_role])
              [Utils.patch_op "add" "parameters/compute-1::count" "2"]
              [Utils.patch_op "replace" "roles/r1/Flavor" "baremetal"] []
              eq_refl eq_refl eq_refl eq_refl eq_refl eq_refl eq_refl eq_refl)
    as [_ Hupdated].
  apply (Hupdated (Scenario.plan_doc_of "updated"));
    [discriminate | reflexivity | reflexivity].
Defined.

Lemma set_plan_update_failures_witness :
  SetManagementPlan.take_action Cases.silent_put_service
    Scenario.plans_manager _ Scenario.plain_columns
    Utils.parameters_args_to_patch Utils.args_to_patch
    Scenario.set_count_and_flavor Scenario.empty_world
  = (Raise (AttributeError "to_dict"),
     {| http_log := [get_request "/v2/plans/u1";
                     put_request "/v2/plans/u1"
                       (PList Cases.count_and_flavor_patch)];
        stderr := [] |}).
Proof.
  assert (Hne : ([Utils.patch_op "add" "parameters/compute-1::count" "2"]
                 ++ [Utils.patch_op "replace" "roles/r1/Flavor" "baremetal"]
                 ++ [])%list <> ([] : list pyval)) by discriminate.
  destruct (set_plan_update_failures Cases.silent_put_service
              Scenario.plans_manager _ Scenario.plain_columns
              Utils.parameters_args_to_patch Utils.args_to_patch
              Scenario.set_count_and_flavor Scenario.empty_world
              "/v2/plans/u1" Scenario.plan_doc Scenario.plan_class
              (PList [Scenario.compute_role])
              [Utils.patch_op "add" "parameters/compute-1::count" "2"]
              [Utils.patch_op "replace" "roles/r1/Flavor" "baremetal"] []
              eq_refl eq_refl eq_refl eq_refl eq_refl eq_refl eq_refl eq_refl
              Hne)
    as [Hempty _].
  exact (Hempty PNone eq_refl eq_refl).
Defined.

(** ** Formatting *)

Import Formatting.

Lemma string_compare_refl s : String.compare s s = Eq.
Proof.
  induction s as [|c s IH]; [done|]. cbn.
  unfold Ascii.compare. by rewrite N.compare_refl.
Qed.

Lemma string_compare_lt_trans a b c :
  String.compare a b = Lt -> String.compare b c = Lt ->
  String.compare a c = Lt.
Proof.
  revert b c. induction a as [|x a IH]; intros [|y b] [|z c]; cbn; try done.
  unfold Ascii.compare.
  destruct (N.compare (N_of_ascii x) (N_of_ascii y)) eqn:Hxy;
    destruct (N.compare (N_of_ascii y) (N_of_ascii z)) eqn:Hyz;
    try done; intros Hab Hbc.
  - apply N.compare_eq_iff in Hxy, Hyz.
    rewrite Hxy, Hyz, N.compare_refl. by apply (IH b).
  - apply N.compare_eq_iff in Hxy. by rewrite Hxy, Hyz.
  - apply N.compare_eq_iff in Hyz. by rewrite <- Hyz, Hxy.
  - apply N.compare_lt_iff in Hxy, Hyz.
    assert (Hxz : (N_of_ascii x < N_of_ascii z)%N) by by etrans.
    apply N.compare_lt_iff in Hxz. by rewrite Hxz.
Qed.

Lemma string_leb_cases a b :
  String.leb a b = true <-> String.compare a b = Lt \/ a = b.
Proof.
  unfold String.leb. split.
  - destruct (String.compare a b) eqn:Hc; [|by left|done].
    right. by apply String.compare_eq_iff.
  - intros [->| ->]; [done|]. by rewrite string_compare_refl.
Qed.

#[local] Instance key_le_trans : Transitive key_le.
Proof.
  intros a b c. unfold key_le. rewrite !string_leb_cases.
  intros [Hab|Hab] [Hbc|Hbc].
  - left. by apply (string_compare_lt_trans _ b.1).
  - left. by rewrite <- Hbc.
  - left. by rewrite Hab.
  - right. by rewrite Hab.
Qed.

#[local] Instance key_le_total : Total key_le.
Proof. intros a b. apply String.leb_total. Qed.

Lemma string_ltb_of_leb a b :
  String.leb a b = true -> a <> b -> String.ltb a b = true.
Proof.
  rewrite string_leb_cases. unfold String.ltb. by intros [->|]. 
Qed.

(** Items sorted by key with distinct keys are in strictly ascending key
    order. *)
Lemma sorted_distinct_keys (items : list (string * pyval)) :
  StronglySorted key_le items -> NoDup items.*1 ->
  StronglySorted (fun a b => String.ltb a.1 b.1 = true) items.
Proof.
  induction 1 as [|x l Hsorted IH Hall]; [constructor|].
  rewrite fmap_cons, NoDup_cons. intros [Hfresh Hnodup].
  constructor; [by apply IH|].
  rewrite Forall_forall in Hall |- *. intros y Hy.
  apply string_ltb_of_leb; [by apply Hall|].
  intros Heq. apply Hfresh. rewrite Heq. by apply list_elem_of_fmap_2.
Qed.

(** X20. [attributes_formatter] on a dictionary writes one line [key=value]
    per entry of the dictionary, each entry once, in strictly ascending
    order of the keys; on anything that is not a dictionary it raises
    [AttributeError]. *)
Theorem attributes_formatter_sorted format_value (attributes : pyval) :
  match attributes with
  | PDict d =>
      exists items,
        attributes_formatter format_value attributes
          = Return (str_join "" (attribute_line format_value <$> items)) /\
        (forall k v, (k, v) ∈ items <-> d !! k = Some v) /\
        StronglySorted (fun a b => String.ltb a.1 b.1 = true) items
  | _ =>
      attributes_formatter format_value attributes
        = Raise (AttributeError "items")
  end.
Proof.
  destruct attributes as [| | | | |d]; try reflexivity.
  exists (sorted_items d). split; [done|].
  assert (Hperm : sorted_items d ≡ₚ map_to_list d)
    by apply merge_sort_Permutation.
  split.
  - intros k v. by rewrite Hperm, elem_of_map_to_list.
  - apply sorted_distinct_keys.
    + apply (StronglySorted_merge_sort key_le).
    + rewrite Hperm. apply NoDup_fst_map_to_list.
Qed.

(** ** [filtered_plan_dict] *)

Import PlanFilter.

Lemma substring_all s : String.substring 0 (String.length s) s = s.
Proof. induction s as [|c s IH]; [done|]. cbn. by rewrite IH. Qed.

Lemma substring_app_r pre suf :
  String.substring (String.length pre) (String.length suf) (pre ++ suf) = suf.
Proof. induction pre as [|c pre IH]; [apply substring_all|exact IH]. Qed.

Lemma string_length_app (a b : string) :
  String.length (a ++ b) = String.length a + String.length b.
Proof.
  induction a as [|c a IH]; [done|].
  change (S (String.length (a ++ b)) = S (String.length a + String.length b)).
  by rewrite IH.
Qed.

Lemma substring_split s k :
  k <= String.length s ->
  s = String.substring 0 k s ++ String.substring k (String.length s - k) s.
Proof.
  revert k. induction s as [|c s IH]; intros [|k] Hk; cbn in *; try done.
  - change (String c s = String c (String.substring 0 (String.length s) s)).
    by rewrite substring_all.
  - change (String c s
            = String c (String.substring 0 k s
                        ++ String.substring k (String.length s - k) s)).
    by rewrite <- IH by lia.
Qed.

(** [str_endswith] is the suffix test. *)
Lemma str_endswith_spec suffix s :
  str_endswith suffix s = true <-> exists pre, s = pre ++ suffix.
Proof.
  unfold str_endswith. rewrite andb_true_iff, Nat.leb_le, String.eqb_eq.
  split.
  - intros [Hle Hsub].
    exists (String.substring 0 (String.length s - String.length suffix) s).
    pose proof (substring_split s (String.length s - String.length suffix))
      as Hsplit.
    replace (String.length s - (String.length s - String.length suffix))
      with (String.length suffix) in Hsplit by lia.
    rewrite Hsub in Hsplit. apply Hsplit. lia.
  - intros [pre ->]. rewrite string_length_app. split; [lia|].
    replace (String.length pre + String.length suffix - String.length suffix)
      with (String.length pre) by lia.
    apply substring_app_r.
Qed.

(** X21. Whenever [filtered_plan_dict] succeeds, every entry other than
    [parameters] and [roles] is as it was; a dictionary that lacks one of
    the two entries comes back unchanged altogether; and when both were
    there, both now hold text. *)
Theorem filtered_plan_dict_touches_two format_value
    (plan_dict filtered : gmap string pyval) :
  filtered_plan_dict format_value plan_dict = Return filtered ->
  (forall k, k <> "parameters" -> k <> "roles" ->
             filtered !! k = plan_dict !! k) /\
  (plan_dict !! "parameters" = None \/ plan_dict !! "roles" = None ->
   filtered = plan_dict) /\
  (is_Some (plan_dict !! "parameters") -> is_Some (plan_dict !! "roles") ->
   exists ptext rtext,
     filtered !! "parameters" = Some (PStr ptext) /\
     filtered !! "roles" = Some (PStr rtext)).
Proof.
  unfold filtered_plan_dict.
  destruct (plan_dict !! "parameters") as [parameters|] eqn:Hp;
    [|intros [= <-]; split; [done|split; [done|by intros [? ?]]]].
  destruct (plan_dict !! "roles") as [roles|] eqn:Hr;
    [|intros [= <-]; split; [done|split; [done|by intros _ [? ?]]]].
  destruct (py_iter parameters) as [params|e]; [|done].
  destruct (filter_result is_count_parameter params) as [kept|e]; [|done].
  destruct (parameters_v2_formatter format_value _) as [ptext|e]; [|done].
  destruct (parameters_v2_formatter format_value _) as [rtext|e]; [|done].
  intros [= <-]. split; [|split].
  - intros k Hkp Hkr. by rewrite !lookup_insert_ne.
  - by intros [?|?].
  - intros _ _. exists ptext, rtext.
    rewrite lookup_insert_eq, lookup_insert_ne, lookup_insert_eq; done.
Qed.

Lemma filter_result_named (params : list pyval) :
  Forall (fun p => exists d n, p = PDict d /\ d !! "name" = Some (PStr n))
         params ->
  filter_result is_count_parameter params
  = Return (List.filter
              (fun p => match is_count_parameter p with
                        | Return b => b
                        | Raise _ => false
                        end) params).
Proof.
  induction 1 as [|p params (d & n & -> & Hname) _ IH]; [done|].
  cbn [filter_result List.filter]. rewrite IH.
  unfold is_count_parameter, py_getitem. rewrite Hname.
  by destruct (str_endswith "::count" n).
Qed.

Lemma map_result_ok {A B} (f : A -> result B) (l : list A) :
  Forall (fun x => exists y, f x = Return y) l ->
  exists ys, map_result f l = Return ys /\ length ys = length l.
Proof.
  induction 1 as [|x l [y Hy] _ (ys & IH & Hlen)]; [by exists []|].
  exists (y :: ys). cbn. rewrite Hy, IH. by rewrite Hlen.
Qed.

(** X22. On a plan dictionary whose [parameters] entry is an array of
    objects with string names and whose [roles] entry is an array of
    objects, [filtered_plan_dict] succeeds: it replaces [parameters] by the
    formatted text of those parameters only whose name ends in [::count],
    and [roles] by the formatted text of the roles, and leaves every other
    entry as it is. *)
Theorem filtered_plan_dict_counts format_value
    (plan_dict : gmap string pyval) params roles :
  plan_dict !! "parameters" = Some (PList params) ->
  plan_dict !! "roles" = Some (PList roles) ->
  Forall (fun p => exists d n, p = PDict d /\ d !! "name" = Some (PStr n))
         params ->
  Forall (fun r => exists d, r = PDict d) roles ->
  let counts :=
    List.filter (fun p => match p with
                          | PDict d =>
                              match d !! "name" with
                              | Some (PStr n) => str_endswith "::count" n
                              | _ => false
                              end
                          | _ => false
                          end) params in
  exists ptext rtext,
    parameters_v2_formatter format_value (PList counts) = Return ptext /\
    parameters_v2_formatter format_value (PList roles) = Return rtext /\
    filtered_plan_dict format_value plan_dict
    = Return (<["roles" := PStr rtext]>
                (<["parameters" := PStr ptext]> plan_dict)).
Proof.
  intros Hparams Hroles Hnamed Hobjects counts.
  assert (Hcounts : filter_result is_count_parameter params = Return counts).
  { rewrite (filter_result_named _ Hnamed). f_equal. subst counts.
    apply filter_ext_in_iff. intros p Hp.
    rewrite Forall_forall in Hnamed.
    destruct (Hnamed p) as (d & n & -> & Hname); [by apply list_elem_of_In|].
    unfold is_count_parameter, py_getitem. by rewrite Hname. }
  assert (Hformat : forall l,
    Forall (fun r => exists d, r = PDict d) l ->
    exists text, parameters_v2_formatter format_value (PList l) = Return text).
  { intros l Hl. unfold parameters_v2_formatter. cbn [py_iter].
    destruct (map_result_ok (attributes_formatter format_value) l)
      as (texts & -> & _); [|by eexists].
    eapply Forall_impl; [exact Hl|]. intros r [d ->]. by eexists. }
  destruct (Hformat counts) as [ptext Hptext].
  { subst counts. rewrite Forall_forall in Hnamed |- *. intros p Hp.
    apply list_elem_of_In, filter_In in Hp as [Hp _].
    destruct (Hnamed p) as (d & n & -> & _); [by apply list_elem_of_In|].
    by eexists. }
  destruct (Hformat roles Hobjects) as [rtext Hrtext].
  exists ptext, rtext. split; [done|]. split; [done|].
  unfold filtered_plan_dict. rewrite Hparams, Hroles. cbn [py_iter].
  rewrite Hcounts. unfold dict_get. rewrite lookup_insert_eq.
  cbn [from_option id]. rewrite Hptext.
  rewrite lookup_insert_ne by done. rewrite lookup_insert_ne by done.
  rewrite Hroles. cbn [from_option id]. rewrite Hrtext.
  by rewrite insert_insert_eq.
Qed.

Lemma filtered_plan_dict_touches_two_witness :
  filtered_plan_dict Cases.str_of Cases.two_parameter_plan
    = Return Cases.filtered_two_parameter_plan /\
  Cases.filtered_two_parameter_plan !! "uuid" = Some (PStr "u1") /\
  filtered_plan_dict Cases.str_of Cases.roleless_plan
    = Return Cases.roleless_plan.
Proof.
  destruct (filtered_plan_dict_touches_two Cases.str_of
              Cases.two_parameter_plan Cases.filtered_two_parameter_plan
              eq_refl) as (Hrest & _ & _).
  split; [reflexivity|]. split; [|reflexivity].
  rewrite (Hrest "uuid") by discriminate. reflexivity.
Defined.

Lemma filtered_plan_dict_counts_witness :
  exists ptext rtext,
    parameters_v2_formatter Cases.str_of (PList [Cases.count_parameter])
      = Return ptext /\
    parameters_v2_formatter Cases.str_of (PList [Scenario.compute_role])
      = Return rtext /\
    filtered_plan_dict Cases.str_of Cases.two_parameter_plan
    = Return (<["roles" := PStr rtext]>
                (<["parameters" := PStr ptext]> Cases.two_parameter_plan)).
Proof.
  refine (filtered_plan_dict_counts Cases.str_of Cases.two_parameter_plan
            [Cases.count_parameter; Cases.image_parameter]
            [Scenario.compute_role] eq_refl eq_refl _ _).
  - repeat constructor; eexists _, _; split; reflexivity.
  - repeat constructor. by eexists.
Defined.

Example attributes_formatter_example :
  attributes_formatter Cases.str_of Cases.count_parameter
  = Return ("name=compute-1::count" ++ newline ++ "value=1" ++ newline).
Proof. reflexivity. Qed.

(** ** Command line checks *)

Import Shell.

(** X23. The shell accepts the authentication options exactly when, with a
    token, the Tuskar URL or the authentication URL is given, and, without
    a token, the user name, the password, a tenant (id or name) and the
    authentication URL are all given. *)
Theorem ensure_auth_info_passes_iff (a : args) :
  _ensure_auth_info a = Passed <->
  if truthy (os_auth_token a) then
    truthy (tuskar_url a) = true \/ truthy (os_auth_url a) = true
  else
    truthy (os_username a) = true /\
    truthy (os_password a) = true /\
    (truthy (os_tenant_id a) = true \/ truthy (os_tenant_name a) = true) /\
    truthy (os_auth_url a) = true.
Proof.
  unfold _ensure_auth_info.
  destruct (truthy (os_auth_token a)), (truthy (os_username a)),
           (truthy (os_password a)), (truthy (os_tenant_id a)),
           (truthy (os_tenant_name a)), (truthy (os_auth_url a)),
           (truthy (tuskar_url a)); cbn;
    (split; [intros H; try discriminate H; repeat split; auto
            |intros H; try reflexivity; exfalso;
             repeat match goal with
                    | H : _ /\ _ |- _ => destruct H
                    | H : _ \/ _ |- _ => destruct H
                    end; discriminate]).
Qed.

(** X24. The check of the shell and the check of the authentication plugin
    agree on credentials that carry the values of the command line (the
    Tuskar URL as endpoint): whatever the plugin accepts the shell accepts,
    and what the shell accepts the plugin accepts too, unless a token comes
    with an authentication URL but no Tuskar URL. *)
Theorem shell_and_plugin_checks (a : args) (o : gmap string pyval) :
  dict_get o "token" = os_auth_token a ->
  dict_get o "username" = os_username a ->
  dict_get o "password" = os_password a ->
  dict_get o "tenant_id" = os_tenant_id a ->
  dict_get o "tenant_name" = os_tenant_name a ->
  dict_get o "auth_url" = os_auth_url a ->
  dict_get o "endpoint" = tuskar_url a ->
  (sufficient_options o = Return tt -> _ensure_auth_info a = Passed) /\
  (_ensure_auth_info a = Passed ->
   (truthy (os_auth_token a) = true -> truthy (tuskar_url a) = true) ->
   sufficient_options o = Return tt).
Proof.
  intros Htoken Huser Hpass Hid Hname Hurl Hend.
  rewrite sufficient_options_cases. cbn [List.filter].
  rewrite Htoken, Huser, Hpass, Hid, Hname, Hurl, Hend.
  unfold _ensure_auth_info.
  destruct (truthy (os_auth_token a)), (truthy (os_username a)),
           (truthy (os_password a)), (truthy (os_tenant_id a)),
           (truthy (os_tenant_name a)), (truthy (os_auth_url a)),
           (truthy (tuskar_url a)); cbn;
    (split; [intros H; try discriminate H; reflexivity
            |intros H Hurl'; try discriminate H; try reflexivity;
             by specialize (Hurl' eq_refl)]).
Qed.

Lemma shell_and_plugin_checks_witness :
  _ensure_auth_info Cases.password_args = Passed /\
  sufficient_options Scenario.password_opts = Return tt.
Proof.
  destruct (shell_and_plugin_checks Cases.password_args
              Scenario.password_opts
              eq_refl eq_refl eq_refl eq_refl eq_refl eq_refl eq_refl)
    as [_ Hplugin].
  split; [reflexivity|]. apply Hplugin; [reflexivity|discriminate].
Defined.

(** ** Test support *)

Import TestUtils.

Lemma string_app_cons c (a b : string) :
  (String c a ++ b)%string = String c (a ++ b)%string.
Proof. reflexivity. Qed.

Lemma string_prefix_spec (needle hay : string) :
  String.prefix needle hay = true <->
  exists post, hay = (needle ++ post)%string.
Proof.
  revert hay. induction needle as [|c needle IH]; intros hay.
  - split; [by exists hay|]. by destruct hay.
  - destruct hay as [|c' hay]; cbn.
    + split; [done|]. by intros [post Hpost].
    + destruct (ascii_dec c c') as [->|Hne].
      * rewrite IH. split; intros [post Hpost]; exists post.
        -- by rewrite string_app_cons, Hpost.
        -- rewrite string_app_cons in Hpost. by injection Hpost.
      * split; [done|]. intros [post Hpost].
        rewrite string_app_cons in Hpost. by injection Hpost.
Qed.

(** [str_contains] is the substring test. *)
Lemma str_contains_spec (needle hay : string) :
  str_contains needle hay = true <->
  exists pre post, hay = (pre ++ needle ++ post)%string.
Proof.
  induction hay as [|c hay IH].
  - cbn [str_contains]. rewrite orb_false_r, string_prefix_spec. split.
    + intros [post Hpost]. by exists "", post.
    + intros (pre & post & Hpost). exists post.
      destruct pre; [done|]. by rewrite string_app_cons in Hpost.
  - cbn [str_contains]. rewrite orb_true_iff, string_prefix_spec, IH. split.
    + intros [[post Hpost]|(pre & post & Hpost)].
      * by exists "", post.
      * exists (String c pre), post. by rewrite string_app_cons, Hpost.
    + intros (pre & post & Hpost). destruct pre as [|c' pre].
      * left. by exists post.
      * right. rewrite string_app_cons in Hpost. injection Hpost as _ Hpost.
        by exists pre, post.
Qed.

Lemma match_output_None output expected type :
  match_output output expected type = None <->
  forall s, expected = Some s -> s = output.
Proof.
  unfold match_output. destruct expected as [s|]; [|done].
  destruct (String.eqb_spec s output) as [->|Hne]; cbn.
  - split; [|done]. by intros _ ? [= ->].
  - split; [done|]. intros H. by destruct Hne, (H s).
Qed.

Lemma match_includes_None output includes type :
  match_includes output includes type = None <->
  Forall (fun part => str_contains part output = true) includes.
Proof.
  induction includes as [|part rest IH]; cbn; [done|].
  rewrite Forall_cons. destruct (str_contains part output); cbn.
  - rewrite IH. tauto.
  - split; [done|]. by intros [? _].
Qed.

Lemma match_excludes_None output excludes type :
  match_excludes output excludes type = None <->
  Forall (fun part => str_contains part output = false) excludes.
Proof.
  induction excludes as [|part rest IH]; cbn; [done|].
  rewrite Forall_cons. destruct (str_contains part output); cbn.
  - split; [done|]. by intros [? _].
  - rewrite IH. tauto.
Qed.

(** X25. A [CommandOutputMatches] matcher accepts a pair of outputs (its
    [match] returns [None]) exactly when each exact text it was given
    equals the corresponding output, every text to include occurs in it and
    no text to exclude does; the expected return code plays no part. *)
Theorem match_accepts_iff (self : CommandOutputMatches) (out err : string) :
  let occurs part output :=
    exists pre post, output = (pre ++ part ++ post)%string in
  match_ self (out, err) = None <->
  (forall s, out_str self = Some s -> s = out) /\
  (forall s, err_str self = Some s -> s = err) /\
  Forall (fun part => occurs part out) (out_inc self) /\
  Forall (fun part => ~ occurs part out) (out_exc self) /\
  Forall (fun part => occurs part err) (err_inc self) /\
  Forall (fun part => ~ occurs part err) (err_exc self).
Proof.
  intros occurs.
  assert (Hinc : forall output l,
    Forall (fun part => occurs part output) l <->
    Forall (fun part => str_contains part output = true) l).
  { intros output l. apply Forall_proper; [|done].
    intros part. by rewrite str_contains_spec. }
  assert (Hexc : forall output l,
    Forall (fun part => ~ occurs part output) l <->
    Forall (fun part => str_contains part output = false) l).
  { intros output l. apply Forall_proper; [|done].
    intros part. rewrite <- not_true_iff_false. by rewrite str_contains_spec. }
  rewrite !Hinc, !Hexc.
  rewrite <- (match_output_None out (out_str self) "output").
  rewrite <- (match_output_None err (err_str self) "error").
  rewrite <- (match_includes_None out (out_inc self) "output").
  rewrite <- (match_excludes_None out (out_exc self) "output").
  rewrite <- (match_includes_None err (err_inc self) "error").
  rewrite <- (match_excludes_None err (err_exc self) "error").
  unfold match_. cbn [fst snd first_not_None].
  destruct (match_output out _ _); [intuition discriminate|].
  destruct (match_output err _ _); [intuition discriminate|].
  destruct (match_includes out _ _); [intuition discriminate|].
  destruct (match_excludes out _ _); [intuition discriminate|].
  destruct (match_includes err _ _); [intuition discriminate|].
  destruct (match_excludes err _ _); intuition discriminate.
Qed.

Example plan_matcher_accepts :
  match_ Cases.plan_matcher ("| uuid | u1 | name | myplan |", "") = None.
Proof. reflexivity. Qed.

Example plan_matcher_reports_missing :
  match_ Cases.plan_matcher ("| uuid | u1 |", "")
  = Some (CommandOutputMissingMismatch "Output" "| uuid | u1 |" "myplan").
Proof. reflexivity. Qed.

Lemma passed_lookup (missing : gset string) (l : list string)
    (d : gmap string pyval) k :
  foldl (fun d key => if decide (key ∈ missing) then d
                      else <[key := value_of key]> d) d l !! k
  = if decide (k ∈ l /\ k ∉ missing) then Some (value_of k) else d !! k.
Proof.
  revert d. induction l as [|x l IH]; intros d; cbn [foldl].
  - rewrite decide_False; [done|]. by intros [?%elem_of_nil _].
  - rewrite IH. destruct (decide (k ∈ l /\ k ∉ missing)) as [[Hl Hm]|Hno].
    + rewrite decide_True; [done|]. split; [by right|done].
    + destruct (decide (x ∈ missing)) as [Hx|Hx].
      * rewrite decide_False; [done|]. intros [Hk Hm].
        apply elem_of_cons in Hk as [->|Hk]; [done|]. by apply Hno.
      * destruct (decide (k = x)) as [->|Hkx].
        -- rewrite lookup_insert_eq, decide_True; [done|].
           split; [by left|done].
        -- rewrite lookup_insert_ne by done.
           rewrite decide_False; [done|]. intros [Hk Hm].
           apply elem_of_cons in Hk as [->|Hk]; [done|]. by apply Hno.
Qed.

Lemma missing_lookup (l : list string) (d : gmap string pyval) k :
  foldl (fun d key => <[key := PNone]> d) d l !! k
  = if decide (k ∈ l) then Some PNone else d !! k.
Proof.
  revert d. induction l as [|x l IH]; intros d; cbn [foldl].
  - by rewrite decide_False by apply not_elem_of_nil.
  - rewrite IH. destruct (decide (k ∈ l)) as [Hl|Hl].
    + by rewrite decide_True by by right.
    + destruct (decide (k = x)) as [->|Hkx].
      * by rewrite lookup_insert_eq, decide_True by by left.
      * rewrite lookup_insert_ne by done.
        rewrite decide_False; [done|].
        intros Hk. apply elem_of_cons in Hk as [->|Hk]; done.
Qed.

Lemma delete_keys_ok (l : list string) (d : gmap string pyval) :
  NoDup l -> (forall k, k ∈ l -> is_Some (d !! k)) ->
  exists d', delete_keys l d = Return d' /\
             forall k, d' !! k = if decide (k ∈ l) then None else d !! k.
Proof.
  revert d. induction l as [|x l IH]; intros d Hnodup Hin; cbn [delete_keys].
  - exists d. split; [done|]. intros k.
    by rewrite decide_False by apply not_elem_of_nil.
  - apply NoDup_cons in Hnodup as [Hx Hnodup].
    destruct (Hin x) as [v Hv]; [by left|]. rewrite Hv.
    destruct (IH (stdpp.base.delete x d) Hnodup) as (d' & Hd' & Hlookup).
    { intros k Hk. rewrite lookup_delete_ne; [apply Hin; by right|].
      by intros ->. }
    exists d'. split; [done|]. intros k. rewrite Hlookup.
    destruct (decide (k ∈ l)) as [Hl|Hl].
    + by rewrite decide_True by by right.
    + destruct (decide (k = x)) as [->|Hkx].
      * by rewrite lookup_delete_eq, decide_True by by left.
      * rewrite lookup_delete_ne by done.
        rewrite decide_False; [done|].
        intros Hk. apply elem_of_cons in Hk as [->|Hk]; done.
Qed.

Lemma delete_keys_fails (l : list string) (d : gmap string pyval) k :
  NoDup l -> k ∈ l -> d !! k = None ->
  exists k', delete_keys l d = Raise (KeyError k') /\
             k' ∈ l /\ d !! k' = None.
Proof.
  revert d. induction l as [|x l IH]; intros d Hnodup Hk Hnone;
    [by apply elem_of_nil in Hk|].
  cbn [delete_keys]. apply NoDup_cons in Hnodup as [Hx Hnodup].
  destruct (d !! x) as [v|] eqn:Hv.
  - apply elem_of_cons in Hk as [->|Hk]; [congruence|].
    destruct (IH (stdpp.base.delete x d) Hnodup Hk)
      as (k' & Hfail & Hk' & Hnone').
    { rewrite lookup_delete_ne; [done|]. by intros ->. }
    exists k'. split; [done|]. split; [by right|].
    rewrite lookup_delete_ne in Hnone'; [done|]. by intros ->.
  - exists x. split; [done|]. split; [by left|done].
Qed.

(** X26. [create_test_dictionary_pair] without translations. When no
    redundant key is also a missing key, it returns the two dictionaries:
    the passed one holds [key_value] under every default or redundant key
    that is not missing; the called one holds [None] under every missing
    key (default or not) and [key_value] under every other default key that
    is not redundant, and nothing else. When some redundant key is also a
    missing key, it raises [KeyError] for such a key instead. *)
Theorem dictionary_pair (default_keys redundant_keys missing_keys
    : gset string) :
  (redundant_keys ## missing_keys ->
   exists passed called,
     create_test_dictionary_pair default_keys redundant_keys missing_keys []
       = Return (passed, called) /\
     forall k,
       passed !! k
         = (if decide (k ∈ default_keys ∪ redundant_keys
                       /\ k ∉ missing_keys)
            then Some (value_of k) else None) /\
       called !! k
         = (if decide (k ∈ missing_keys) then Some PNone
            else if decide (k ∈ default_keys /\ k ∉ redundant_keys)
                 then Some (value_of k) else None)) /\
  (forall k,
     k ∈ redundant_keys -> k ∈ missing_keys ->
     exists k',
       create_test_dictionary_pair default_keys redundant_keys missing_keys []
         = Raise (KeyError k') /\
       k' ∈ redundant_keys /\ k' ∈ missing_keys).
Proof.
  assert (Hpassed : forall k,
    passed_dictionary_of default_keys redundant_keys missing_keys !! k
    = if decide (k ∈ default_keys ∪ redundant_keys /\ k ∉ missing_keys)
      then Some (value_of k) else None).
  { intros k. unfold passed_dictionary_of. rewrite passed_lookup.
    rewrite lookup_empty. apply decide_ext. by rewrite elem_of_elements. }
  split.
  - intros Hdisjoint.
    destruct (delete_keys_ok (elements redundant_keys)
                (passed_dictionary_of default_keys redundant_keys
                   missing_keys)) as (called & Hcalled & Hlookup).
    { apply NoDup_elements. }
    { intros k Hk%elem_of_elements. rewrite Hpassed.
      rewrite decide_True; [done|]. split; set_solver. }
    eexists _, _. unfold create_test_dictionary_pair. rewrite Hcalled.
    split; [reflexivity|]. intros k. split; [apply Hpassed|].
    cbn [foldl]. rewrite missing_lookup, Hlookup, Hpassed.
    rewrite (decide_ext (k ∈ elements missing_keys) (k ∈ missing_keys))
      by apply elem_of_elements.
    rewrite (decide_ext (k ∈ elements redundant_keys) (k ∈ redundant_keys))
      by apply elem_of_elements.
    destruct (decide (k ∈ missing_keys)); [done|].
    destruct (decide (k ∈ redundant_keys)).
    + by rewrite decide_False by tauto.
    + apply decide_ext. rewrite elem_of_union. tauto.
  - intros k Hred Hmiss.
    destruct (delete_keys_fails (elements redundant_keys)
                (passed_dictionary_of default_keys redundant_keys
                   missing_keys) k) as (k' & Hfail & Hk' & Hnone).
    { apply NoDup_elements. }
    { by apply elem_of_elements. }
    { rewrite Hpassed. by rewrite decide_False by tauto. }
    exists k'. unfold create_test_dictionary_pair. rewrite Hfail.
    split; [done|]. apply elem_of_elements in Hk'. split; [done|].
    rewrite Hpassed in Hnone.
    destruct (decide (k' ∈ missing_keys)); [done|].
    rewrite decide_True in Hnone; [done|]. split; set_solver.
Qed.

Example dictionary_pair_example :
  create_test_dictionary_pair {["a"; "b"]} {["c"]} {["b"]} [("a", "x")]
  = Return (<["a" := PStr "a_value"]> (<["c" := PStr "c_value"]> ∅),
            <["x" := PStr "a_value"]> (<["b" := PNone]> ∅)).
Proof. vm_compute. reflexivity. Qed.

Example dictionary_pair_overlap :
  create_test_dictionary_pair {["a"]} {["c"]} {["c"]} []
  = Raise (KeyError "c").
Proof. vm_compute. reflexivity. Qed.
